(** * DeepMindCheck: keyword classifier, analysis store and reports

    A shallow embedding of the Django views of the repository:

    - [api/views.py]: [analyze_text], [generate_demo_prediction],
      [generate_probabilities], [generate_message],
      [generate_recommendations], [generate_explanation],
      [get_client_ip] and [submit_feedback];
    - [analytics/models.py] and [analytics/views.py]: the [Analysis] and
      [Feedback] tables and [reports_view].

    Conventions of the embedding.

    - A Python [float] is an exact rational ([Q]): the arithmetic of the
      views is followed operation by operation, rounding error of the
      binary representation is outside the model.
    - A Python [int] is a [Z]; a [str] is a [string] whose characters are
      the code points below 256.
    - A [dict] is an insertion-ordered association list, as [dict.keys()]
      enumerates it.
    - [random.random()] is an input: a sequence of draws from [0, 1) that
      the code consumes in program order.
    - An exception is a value: code that can raise returns a [result], and
      a view runs in a state-and-exception monad over the tables, so that
      whatever was written before a [raise] stays written. *)

From Stdlib Require Import ZArith QArith Qminmax Qround Lqa Lia.
From Stdlib Require Import String Ascii List Bool DecimalString.
From Stdlib Require Import Permutation Sorted.
Import ListNotations.

Local Open Scope Z_scope.

(** ** Python built-ins used by the views *)
Module Py.

(** Values of request and response bodies (parsed and rendered JSON). *)
#[local] Unset Elimination Schemes.
Inductive value : Type :=
| VNone
| VBool (b : bool)
| VInt (n : Z)
| VFloat (x : Q)
| VStr (s : string)
| VList (l : list value)
| VDict (d : list (string * value)).
#[local] Set Elimination Schemes.

(** [bool(v)]. *)
Definition truthy (v : value) : bool :=
  match v with
  | VNone => false
  | VBool b => b
  | VInt n => negb (n =? 0)
  | VFloat x => negb (Qeq_bool x 0)
  | VStr s => negb (String.eqb s "")
  | VList l => match l with [] => false | _ => true end
  | VDict d => match d with [] => false | _ => true end
  end.

(** A raised exception: its class and [str(e)]. *)
Record exn : Type := Exn { exn_class : string; exn_str : string }.

Inductive result (A : Type) : Type :=
| Ok (a : A)
| Raise (e : exn).
Arguments Ok {A} a.
Arguments Raise {A} e.

(** *** dict *)

Definition dict (V : Type) : Type := list (string * V).

(** [d.get(k)], [None] when the key is absent. *)
Fixpoint get {V : Type} (d : dict V) (k : string) : option V :=
  match d with
  | [] => None
  | (k', v) :: rest => if String.eqb k' k then Some v else get rest k
  end.

(** [d.get(k, default)]. *)
Definition get_default {V : Type} (d : dict V) (k : string) (default : V) : V :=
  match get d k with
  | Some v => v
  | None => default
  end.

(** [d[k]]: raises [KeyError] when the key is absent. *)
Definition getitem {V : Type} (d : dict V) (k : string) : result V :=
  match get d k with
  | Some v => Ok v
  | None => Raise (Exn "KeyError" k)
  end.

(** [d[k] = v]: replaces in place, or appends a new key. *)
Fixpoint set {V : Type} (d : dict V) (k : string) (v : V) : dict V :=
  match d with
  | [] => [(k, v)]
  | (k', v') :: rest =>
      if String.eqb k' k then (k', v) :: rest else (k', v') :: set rest k v
  end.

(** [d.keys()] and [d.values()], in insertion order. *)
Definition keys {V : Type} (d : dict V) : list string := map fst d.
Definition values {V : Type} (d : dict V) : list V := map snd d.

(** *** str *)

Definition code (c : ascii) : N := N_of_ascii c.

(** [c.isspace()] on the code points below 256. *)
Definition isspace (c : ascii) : bool :=
  let n := code c in
  ((9 <=? n) && (n <=? 13) || (28 <=? n) && (n <=? 32)
   || (n =? 133) || (n =? 160))%N.

(** [c.lower()] on the code points below 256: the ASCII capitals and the
    Latin-1 capitals (all of 192..222 but the multiplication sign, 215). *)
Definition lower_char (c : ascii) : ascii :=
  let n := code c in
  if ((65 <=? n) && (n <=? 90)
      || (192 <=? n) && (n <=? 222) && negb (n =? 215))%N
  then ascii_of_N (n + 32)
  else c.

(** [s.lower()]. *)
Fixpoint lower (s : string) : string :=
  match s with
  | EmptyString => EmptyString
  | String c rest => String (lower_char c) (lower rest)
  end.

(** [s.lstrip()], [s.rstrip()], [s.strip()]. *)
Fixpoint lstrip (s : string) : string :=
  match s with
  | EmptyString => EmptyString
  | String c rest => if isspace c then lstrip rest else s
  end.

Fixpoint rstrip (s : string) : string :=
  match s with
  | EmptyString => EmptyString
  | String c rest =>
      match rstrip rest with
      | EmptyString => if isspace c then EmptyString else String c EmptyString
      | kept => String c kept
      end
  end.

Definition strip (s : string) : string := rstrip (lstrip s).

(** [v.strip()] on a request value: only a [str] has the method. *)
Definition value_strip (v : value) : result string :=
  match v with
  | VStr s => Ok (strip s)
  | _ => Raise (Exn "AttributeError" "object has no attribute 'strip'")
  end.

(** [len(s)]. *)
Definition len (s : string) : Z := Z.of_nat (String.length s).

(** [word in s]: [word] occurs in [s] as a substring. *)
Fixpoint contains (word s : string) : bool :=
  String.prefix word s ||
  match s with
  | EmptyString => false
  | String _ rest => contains word rest
  end.

(** [s.split(sep)[0]]: what comes before the first separator. *)
Fixpoint split_first (sep : ascii) (s : string) : string :=
  match s with
  | EmptyString => EmptyString
  | String c rest =>
      if Ascii.eqb c sep then EmptyString else String c (split_first sep rest)
  end.

(** [s[:n]]. *)
Definition take (n : nat) (s : string) : string := String.substring 0 n s.

(** [str(n)] of an int. *)
Definition str_of_int (n : Z) : string := NilZero.string_of_int (Z.to_int n).

(** [int(s)] of a str: optional blanks around, an optional sign, then
    decimal digits, where a single underscore may stand between two
    digits. *)
Definition digit_of (c : ascii) : option Z :=
  let n := code c in
  if ((48 <=? n) && (n <=? 57))%N then Some (Z.of_N n - 48) else None.

(** The value of a digit string read after [acc]; [after_digit] tells
    that the character before was a digit. *)
Fixpoint digits_value (acc : Z) (after_digit : bool) (s : string)
  : option Z :=
  match s with
  | EmptyString => if after_digit then Some acc else None
  | String c rest =>
      match digit_of c with
      | Some d => digits_value (10 * acc + d) true rest
      | None =>
          if Ascii.eqb c "_" && after_digit
          then digits_value acc false rest
          else None
      end
  end.

Definition int_of_str (s : string) : option Z :=
  match strip s with
  | EmptyString => None
  | String "-" ds => option_map Z.opp (digits_value 0 false ds)
  | String "+" ds => digits_value 0 false ds
  | ds => digits_value 0 false ds
  end.

(** *** float *)

Local Open Scope Q_scope.

(** The integer nearest to [x], a tie going to the even one. *)
Definition round_half_even (x : Q) : Z :=
  let f := Qfloor x in
  match Qcompare (x - inject_Z f) 0.5 with
  | Lt => f
  | Gt => (f + 1)%Z
  | Eq => if Z.even f then f else (f + 1)%Z
  end.

(** [round(x, ndigits)] for [ndigits >= 0], on the exact value: where
    the decimal expansion of [x] ends in a tie the binary float of the
    code may lie just off it and go to the other neighbour. *)
Definition round (x : Q) (ndigits : nat) : Q :=
  let scale := inject_Z (10 ^ Z.of_nat ndigits) in
  inject_Z (round_half_even (x * scale)) / scale.

(** [x > y] on floats. *)
Definition gt (x y : Q) : bool := negb (Qle_bool x y).

(** [int(x)] of a float: truncation towards zero. *)
Definition int_of_float (x : Q) : Z :=
  if Qle_bool 0 x then Qfloor x else Qceiling x.

(** [f"{x:.1%}"]: the percentage with one decimal, of the exact value
    (at a decimal tie the binary float may print the other neighbour). *)
Definition format_percent1 (x : Q) : string :=
  let tenths := round_half_even (x * 1000) in
  let sign := if (tenths <? 0)%Z then "-"%string else ""%string in
  let m := Z.abs tenths in
  (sign ++ str_of_int (m / 10) ++ "." ++ str_of_int (m mod 10) ++ "%")%string.

(** *** random *)

(** The values that successive calls of [random.random()] return. *)
Definition rng : Type := nat -> Q.

(** Every draw lies in [0, 1). *)
Definition unit_draws (g : rng) : Prop := forall n : nat, 0 <= g n /\ g n < 1.

(** [random.random()]. *)
Definition random (g : rng) : Q * rng := (g O, fun n => g (S n)).

(** [random.uniform(a, b)]: [a + (b - a) * random()]. *)
Definition uniform (a b : Q) (g : rng) : Q * rng :=
  let (u, g') := random g in (a + (b - a) * u, g').

(** [sum(xs)] of floats. *)
Definition sum (xs : list Q) : Q := fold_left Qplus xs 0.

End Py.

(** ** [api/views.py] *)
Module Api.
Import Py.

Local Open Scope string_scope.
Local Open Scope Q_scope.

(** *** The tables behind [TextAnalysis.objects] and [UserFeedback.objects] *)

(** A row of [TextAnalysis], with the columns [analyze_text] fills. *)
Record TextAnalysis : Type := {
  id : Z;
  text_input : string;
  text_length : Z;
  prediction : string;
  confidence_score : Q;
  probabilities : dict Q;
  model_used : value;
  processing_time : Q;
  session_id : string;
  ip_address : option string;
  user_agent : string
}.

(** A row of [UserFeedback]: the analysis it points to and the rating. *)
Record UserFeedback : Type := {
  feedback_id : Z;
  analysis : Z;
  rating : Z
}.

(** The two tables and their primary-key sequences. *)
Record tables : Type := {
  text_analyses : list TextAnalysis;
  analysis_seq : Z;
  user_feedbacks : list UserFeedback;
  feedback_seq : Z
}.

Definition empty_tables : tables :=
  {| text_analyses := []; analysis_seq := 0%Z;
     user_feedbacks := []; feedback_seq := 0%Z |}.

(** A view's computation: it reads and writes the tables and may raise;
    the tables as they were at the [raise] are kept. *)
Definition M (A : Type) : Type := tables -> tables * result A.

Definition ret {A : Type} (a : A) : M A := fun t => (t, Ok a).

Definition bind {A B : Type} (m : M A) (k : A -> M B) : M B :=
  fun t =>
    match m t with
    | (t', Ok a) => k a t'
    | (t', Raise e) => (t', Raise e)
    end.

Definition lift {A : Type} (r : result A) : M A := fun t => (t, r).

Notation "x <- m ;; k" := (bind m (fun x => k))
  (at level 61, m at next level, right associativity).

(** Modelled from the spec: [core/models.py], which declares [TextAnalysis]
    and [UserFeedback], is not among the sources.  [record(analysis)]
    persists a new Analysis and returns the generated identifier; the
    identifier is the next value of the table's sequence
    ([DEFAULT_AUTO_FIELD] is [BigAutoField]). *)
Definition TextAnalysis_create
    (text_input : string) (text_length : Z) (prediction : string)
    (confidence_score : Q) (probabilities : dict Q) (model_used : value)
    (processing_time : Q) (session_id : string) (ip_address : option string)
    (user_agent : string) : M TextAnalysis :=
  fun t =>
    let row := {| id := (analysis_seq t + 1)%Z;
                  text_input := text_input;
                  text_length := text_length;
                  prediction := prediction;
                  confidence_score := confidence_score;
                  probabilities := probabilities;
                  model_used := model_used;
                  processing_time := processing_time;
                  session_id := session_id;
                  ip_address := ip_address;
                  user_agent := user_agent |} in
    ({| text_analyses := text_analyses t ++ [row];
        analysis_seq := (analysis_seq t + 1)%Z;
        user_feedbacks := user_feedbacks t;
        feedback_seq := feedback_seq t |}, Ok row).

(** What an integer column makes of a request value ([int(value)]);
    [None] is SQL [NULL].  The text of the conversion error is shortened:
    the framework's names the field and the value. *)
Definition prep_int (v : value) : result (option Z) :=
  match v with
  | VNone => Ok None
  | VBool b => Ok (Some (if b then 1 else 0)%Z)
  | VInt n => Ok (Some n)
  | VFloat x => Ok (Some (int_of_float x))
  | VStr s =>
      match int_of_str s with
      | Some n => Ok (Some n)
      | None => Raise (Exn "ValueError" "Field expected a number")
      end
  | VList _ | VDict _ => Raise (Exn "TypeError" "Field expected a number")
  end.

(** Modelled from the spec: [TextAnalysis.objects.get(id=analysis_id)]
    returns the one row with that identifier and raises [DoesNotExist]
    when [analysis_id] does not resolve to an existing record. *)
Definition TextAnalysis_get (analysis_id : value) : M TextAnalysis :=
  fun t =>
    match prep_int analysis_id with
    | Raise e => (t, Raise e)
    | Ok key =>
        let hit (a : TextAnalysis) :=
          match key with
          | Some n => (id a =? n)%Z
          | None => false
          end in
        match filter hit (text_analyses t) with
        | [a] => (t, Ok a)
        | [] => (t, Raise (Exn "DoesNotExist"
                             "TextAnalysis matching query does not exist."))
        | _ => (t, Raise (Exn "MultipleObjectsReturned"
                            "get() returned more than one TextAnalysis"))
        end
    end.

(** The integers that an integer column of the default database (SQLite,
    [settings.py]) stores: 64 bits, signed.  The PostgreSQL database that
    [DATABASE_URL] selects keeps 32 bits. *)
Definition fits_column (n : Z) : bool :=
  ((- 2 ^ 63 <=? n) && (n <? 2 ^ 63))%Z.

(** Modelled from the spec: [UserFeedback.objects.create(analysis=...,
    rating=...)] inserts a row.  The rating column is an integer column
    (declared with choices 1 to 5, as [Feedback.rating] in
    [analytics/models.py]); [create] saves without running the field
    validators, so the column's conversion, its [NOT NULL] constraint and
    its width are all that can refuse a value. *)
Definition UserFeedback_create (a : TextAnalysis) (rating : value)
  : M UserFeedback :=
  fun t =>
    match prep_int rating with
    | Raise e => (t, Raise e)
    | Ok None =>
        (t, Raise (Exn "IntegrityError" "NOT NULL constraint failed: rating"))
    | Ok (Some r) =>
        if fits_column r then
          let row := {| feedback_id := (feedback_seq t + 1)%Z;
                        analysis := id a;
                        rating := r |} in
          ({| text_analyses := text_analyses t;
              analysis_seq := analysis_seq t;
              user_feedbacks := user_feedbacks t ++ [row];
              feedback_seq := (feedback_seq t + 1)%Z |}, Ok row)
        else
          (t, Raise (Exn "OverflowError"
                       "Python int too large to convert to SQLite INTEGER"))
    end.

(** *** The demo classifier *)

Definition depression_keywords : list string :=
  ["sad"; "depressed"; "hopeless"; "worthless"; "tired"; "empty"; "lonely";
   "useless"].
Definition anxiety_keywords : list string :=
  ["anxious"; "worried"; "nervous"; "panic"; "stress"; "overwhelmed";
   "scared"; "fear"].
Definition neutral_keywords : list string :=
  ["happy"; "good"; "great"; "excited"; "positive"; "love"; "joy";
   "wonderful"].

(** [sum(1 for word in keywords if word in text_lower)]. *)
Definition keyword_score (keywords : list string) (text_lower : string) : Z :=
  fold_left Z.add
    (map (fun _ => 1%Z) (filter (fun word => contains word text_lower) keywords))
    0%Z.

(** The loop of [generate_probabilities] over [enumerate(other_classes)]:
    the last class takes what remains, every other one a uniform draw. *)
Fixpoint share_remaining (other_classes : list string) (remaining : Q)
    (probs : dict Q) (g : rng) : dict Q * rng :=
  match other_classes with
  | [] => (probs, g)
  | [other] => (set probs other remaining, g)
  | other :: rest =>
      let (prob, g') := uniform 0.05 (remaining - 0.05) g in
      share_remaining rest (remaining - prob) (set probs other prob) g'
  end.

Definition generate_probabilities (prediction : string) (confidence : Q)
    (g : rng) : dict Q * rng :=
  let probs := [("neutral", 0.33); ("depression", 0.33); ("anxiety", 0.33)] in
  let probs := set probs prediction confidence in
  let remaining := 1.0 - confidence in
  let other_classes :=
    filter (fun k => negb (String.eqb k prediction)) (keys probs) in
  share_remaining other_classes remaining probs g.

(** The branch of [generate_demo_prediction] on the three scores: the
    prediction and the base confidence. *)
Definition choose (depression_score anxiety_score neutral_score : Z)
  : string * Q :=
  if ((anxiety_score <? depression_score)
      && (neutral_score <? depression_score))%Z
  then ("depression", 0.7 + inject_Z depression_score * 0.05)
  else if ((depression_score <? anxiety_score)
           && (neutral_score <? anxiety_score))%Z
  then ("anxiety", 0.7 + inject_Z anxiety_score * 0.05)
  else if (0 <? neutral_score)%Z
  then ("neutral", 0.6 + inject_Z neutral_score * 0.05)
  else ("neutral", 0.5).

Definition generate_demo_prediction (text : string) (g : rng)
  : (string * Q * dict Q) * rng :=
  let text_lower := lower text in
  let depression_score := keyword_score depression_keywords text_lower in
  let anxiety_score := keyword_score anxiety_keywords text_lower in
  let neutral_score := keyword_score neutral_keywords text_lower in
  let (prediction, base_confidence) :=
    choose depression_score anxiety_score neutral_score in
  let (noise, g1) := uniform (-0.1) 0.1 g in
  let confidence := Qmin 0.95 (Qmax 0.3 (base_confidence + noise)) in
  let (probabilities, g2) := generate_probabilities prediction confidence g1 in
  ((prediction, confidence, probabilities), g2).

(** *** Messages, recommendations and explanation *)

Definition messages : dict (dict string) :=
  [("neutral",
    [("high", "Your text suggests a balanced and positive mental state. Keep maintaining good mental health practices!");
     ("medium", "Your text appears mostly neutral. Continue focusing on your well-being.");
     ("low", "The analysis suggests a generally stable state, though some patterns are unclear.")]);
   ("depression",
    [("high", "Your text shows patterns that may indicate depressive thoughts. Please consider reaching out to a mental health professional or trusted person.");
     ("medium", "Some concerning patterns detected in your text. It might be helpful to talk to someone you trust.");
     ("low", "Your text contains some indicators that warrant attention. Consider monitoring your mental health.")]);
   ("anxiety",
    [("high", "Your text suggests elevated stress or anxiety levels. Relaxation techniques and professional support may be beneficial.");
     ("medium", "Some stress or anxiety indicators detected. Consider practicing stress management techniques.");
     ("low", "Mild stress patterns observed. Regular self-care practices may be helpful.")])].

(** ['high' if confidence > 0.7 else 'medium' if confidence > 0.5 else 'low']. *)
Definition level (confidence : Q) : string :=
  if gt confidence 0.7 then "high"
  else if gt confidence 0.5 then "medium"
  else "low".

Definition generate_message (prediction : string) (confidence : Q)
  : result string :=
  match getitem messages prediction with
  | Ok by_level => getitem by_level (level confidence)
  | Raise e => Raise e
  end.

Definition recommendations : dict (list string) :=
  [("neutral",
    ["Continue healthy lifestyle habits and regular exercise";
     "Maintain strong social connections with friends and family";
     "Practice mindfulness or meditation regularly"]);
   ("depression",
    ["Consider speaking with a mental health professional";
     "Reach out to trusted friends, family members, or support groups";
     "Maintain physical activity and spend time in natural light"]);
   ("anxiety",
    ["Practice deep breathing exercises and progressive muscle relaxation";
     "Try mindfulness meditation or grounding techniques";
     "Consider limiting caffeine intake and maintaining regular sleep"])].

Definition generate_recommendations (prediction : string)
  : result (list string) :=
  getitem recommendations prediction.

Definition explanations : dict string :=
  [("depression", "The model detected language patterns and word choices commonly associated with depressive thoughts, including expressions of hopelessness, sadness, or negative self-perception.");
   ("anxiety", "The analysis identified linguistic markers typically associated with anxiety, such as expressions of worry, nervousness, or stress-related concerns.");
   ("neutral", "The language patterns in your text appear balanced and don't strongly indicate specific mental health concerns, suggesting a relatively stable emotional state.")].

Definition generate_explanation (prediction : string) (confidence : Q)
    (text : string) : result (dict value) :=
  let confidence_explanation :=
    ("The model's confidence in this prediction is "
       ++ format_percent1 confidence ++ ". ")%string in
  let confidence_explanation :=
    (confidence_explanation ++
       (if gt confidence 0.8
        then "This indicates a strong pattern match with the training data."
        else if gt confidence 0.6
        then "This suggests a moderate pattern match with some uncertainty."
        else "This indicates lower certainty, suggesting mixed or unclear patterns."))%string in
  match getitem explanations prediction with
  | Ok reasoning =>
      Ok [("reasoning", VStr reasoning);
          ("confidence_explanation", VStr confidence_explanation);
          ("disclaimer", VStr "This analysis is for informational purposes only and is not a substitute for professional medical advice, diagnosis, or treatment.")]
  | Raise e => Raise e
  end.

(** *** Requests and responses *)

(** What a view reads of the request: the parsed JSON object, the session
    key and the WSGI environment. *)
Record Request : Type := {
  data : dict value;
  session_key : option string;
  META : dict string
}.

(** What [analyze_text] takes from outside the request: the random draws,
    the two readings of [time.time()] and the text of [uuid.uuid4()]. *)
Record Env : Type := {
  rand : rng;
  time_start : Q;
  time_end : Q;
  uuid4 : string
}.

Record Response : Type := {
  body : dict value;
  status : Z
}.

Definition HTTP_200_OK : Z := 200.
Definition HTTP_201_CREATED : Z := 201.
Definition HTTP_400_BAD_REQUEST : Z := 400.
Definition HTTP_500_INTERNAL_SERVER_ERROR : Z := 500.

Definition get_client_ip (request : Request) : option string :=
  match get (META request) "HTTP_X_FORWARDED_FOR" with
  | Some x_forwarded_for =>
      if negb (String.eqb x_forwarded_for "")
      then Some (split_first "," x_forwarded_for)
      else get (META request) "REMOTE_ADDR"
  | None => get (META request) "REMOTE_ADDR"
  end.

(** The body of the [try] of [analyze_text]. *)
Definition analyze_text_try (request : Request) (env : Env) : M Response :=
  text <- lift (value_strip (get_default (data request) "text" (VStr ""))) ;;
  let model_choice := get_default (data request) "model" (VStr "baseline") in
  let include_explanation :=
    get_default (data request) "explain" (VBool false) in
  if String.eqb text "" then
    ret {| body := [("error", VStr "Text input is required")];
           status := HTTP_400_BAD_REQUEST |}
  else if (len text <? 10)%Z then
    ret {| body := [("error", VStr "Text must be at least 10 characters long")];
           status := HTTP_400_BAD_REQUEST |}
  else if (2000 <? len text)%Z then
    ret {| body := [("error", VStr "Text must be less than 2000 characters")];
           status := HTTP_400_BAD_REQUEST |}
  else
    let start_time := time_start env in
    let (_, g) := uniform 0.3 0.8 (rand env) in
    let '(prediction, confidence, probabilities, _) :=
      generate_demo_prediction text g in
    let processing_time := time_end env - start_time in
    analysis <- TextAnalysis_create text (len text) prediction confidence
                  probabilities model_choice processing_time
                  (match session_key request with
                   | Some key =>
                       if String.eqb key "" then take 8 (uuid4 env) else key
                   | None => take 8 (uuid4 env)
                   end)
                  (get_client_ip request)
                  (get_default (META request) "HTTP_USER_AGENT" "") ;;
    message <- lift (generate_message prediction confidence) ;;
    recs <- lift (generate_recommendations prediction) ;;
    let response_data :=
      [("id", VStr (str_of_int (id analysis)));
       ("prediction", VStr prediction);
       ("confidence", VFloat confidence);
       ("probabilities",
        VDict (map (fun kv => (fst kv, VFloat (snd kv))) probabilities));
       ("model_used", model_choice);
       ("processing_time", VFloat (round processing_time 3));
       ("text_length", VInt (len text));
       ("message", VStr message);
       ("recommendations", VList (map VStr recs))] in
    response_data <-
      (if truthy include_explanation
       then explanation <- lift (generate_explanation prediction confidence text) ;;
            ret (set response_data "explanation" (VDict explanation))
       else ret response_data) ;;
    ret {| body := response_data; status := HTTP_200_OK |}.

(** [analyze_text]: the [try] and its [except Exception]. *)
Definition analyze_text (request : Request) (env : Env) (t : tables)
  : tables * Response :=
  match analyze_text_try request env t with
  | (t', Ok response) => (t', response)
  | (t', Raise _) =>
      (t', {| body := [("error", VStr "Analysis failed. Please try again.")];
              status := HTTP_500_INTERNAL_SERVER_ERROR |})
  end.

(** The body of the [try] of [submit_feedback]. *)
Definition submit_feedback_try (request : Request) : M Response :=
  let analysis_id := get_default (data request) "analysis_id" VNone in
  let rating := get_default (data request) "rating" VNone in
  analysis <- TextAnalysis_get analysis_id ;;
  _ <- UserFeedback_create analysis rating ;;
  ret {| body := [("message", VStr "Feedback submitted")];
         status := HTTP_201_CREATED |}.

(** [submit_feedback]: the [try] and its [except Exception]. *)
Definition submit_feedback (request : Request) (t : tables)
  : tables * Response :=
  match submit_feedback_try request t with
  | (t', Ok response) => (t', response)
  | (t', Raise e) =>
      (t', {| body := [("error", VStr (exn_str e))];
              status := HTTP_500_INTERNAL_SERVER_ERROR |})
  end.

End Api.

(** ** [analytics/models.py] and [analytics/views.py] *)
Module Analytics.
Import Py.

Local Open Scope Q_scope.

(** *** The models *)

(** A [DateTimeField] holds seconds since the epoch, in UTC ([USE_TZ] is on
    and [TIME_ZONE] is ['UTC']); a date is a day number, so that adding
    [timedelta(days=n)] adds [n]. *)
Definition datetime : Type := Z.
Definition date : Type := Z.

(** [dt.date()], and [TruncDate] in the queries. *)
Definition date_of (dt : datetime) : date := (dt / 86400)%Z.

Record Analysis : Type := {
  id : Z;
  user : option Z;
  input_text : string;
  prediction : string;
  confidence : option Q;
  model_used : string;
  response_time : option Q;
  text_length : option Z;
  created_at : datetime
}.

Record Feedback : Type := {
  feedback_id : Z;
  analysis : Z;
  feedback_user : option Z;
  rating : Z;
  feedback_text : option string;
  feedback_created_at : datetime
}.

(** The rows behind [Analysis.objects] and [Feedback.objects]. *)
Record store : Type := {
  analyses : list Analysis;
  feedbacks : list Feedback
}.

(** *** Query sets *)

(** [qs.count()]. *)
Definition count {A : Type} (qs : list A) : Z := Z.of_nat (length qs).

(** [qs.aggregate(avg=Avg("rating"))["avg"]]: [None] over no row. *)
Definition Avg_rating (qs : list Feedback) : option Q :=
  match qs with
  | [] => None
  | _ => Some (inject_Z (fold_left Z.add (map rating qs) 0%Z)
               / inject_Z (count qs))
  end.

(** [x or 0] on an optional float. *)
Definition or_zero (x : option Q) : Q :=
  match x with
  | Some q => if Qeq_bool q 0 then 0 else q
  | None => 0
  end.

(** One row of [.values("day").annotate(count=Count("id"))]. *)
Record day_count : Type := { day : date; day_rows : Z }.

(** Adds one analysis of day [d] to the groups, which stay ordered by day. *)
Fixpoint add_to_day (d : date) (groups : list day_count) : list day_count :=
  match groups with
  | [] => [{| day := d; day_rows := 1 |}]
  | g :: rest =>
      if (d <? day g)%Z then {| day := d; day_rows := 1 |} :: groups
      else if (d =? day g)%Z
      then {| day := day g; day_rows := (day_rows g + 1)%Z |} :: rest
      else g :: add_to_day d rest
  end.

(** [Analysis.objects.filter(created_at__date__gte=last_30)
      .annotate(day=TruncDate("created_at")).values("day")
      .annotate(count=Count("id")).order_by("day")]. *)
Definition activity_qs (last_30 : date) (rows : list Analysis)
  : list day_count :=
  fold_right add_to_day []
    (map (fun a => date_of (created_at a))
       (filter (fun a => (last_30 <=? date_of (created_at a))%Z) rows)).

(** [next((a for a in activity_qs if a["day"] == day), None)]. *)
Definition next_match (qs : list day_count) (d : date) : option day_count :=
  find (fun a => (day a =? d)%Z) qs.

(** [range(n)] and [range(5, 0, -1)]. *)
Definition range (n : nat) : list Z := map Z.of_nat (seq 0 n).
Definition stars : list Z := [5; 4; 3; 2; 1]%Z.

(** *** [reports_view] *)

Record star_stat : Type := {
  star : Z;
  star_count : Z;
  percentage : Q
}.

(** The template context, without the two tables ([predictions] and
    [model_performance]) that group the analyses by label and by model. *)
Record context : Type := {
  total_analyses : Z;
  total_feedback : Z;
  avg_rating : Q;
  feedback_rate : Q;
  star_stats : list star_stat;
  recent_activity_labels : list string;
  recent_activity_data : list Z
}.

Section Reports.

(** [day.strftime("%Y-%m-%d")], the platform's rendering of a date. *)
Variable strftime : date -> string.

(** The loop that builds [labels] and [data], one pass per [i]. *)
Definition daily_series (last_30 : date) (qs : list day_count)
  : list string * list Z :=
  fold_left
    (fun (acc : list string * list Z) (i : Z) =>
       let (labels, data) := acc in
       let day := (last_30 + i)%Z in
       (labels ++ [strftime day],
        data ++ [match next_match qs day with
                 | Some m => day_rows m
                 | None => 0%Z
                 end]))
    (range 30) ([], []).

Definition reports_view (now : datetime) (db : store) : context :=
  let total_analyses := count (analyses db) in
  let feedback_qs := feedbacks db in
  let total_feedback := count feedback_qs in
  let feedback_rate :=
    if negb (total_analyses =? 0)%Z
    then round (inject_Z total_feedback / inject_Z total_analyses * 100) 2
    else 0 in
  let avg_rating := or_zero (Avg_rating feedback_qs) in
  let star_stats :=
    map (fun star =>
           let n := count (filter (fun f => (rating f =? star)%Z) feedback_qs) in
           let percentage :=
             if negb (total_feedback =? 0)%Z
             then round (inject_Z n / inject_Z total_feedback * 100) 2
             else 0 in
           {| star := star; star_count := n; percentage := percentage |})
        stars in
  let today := date_of now in
  let last_30 := (today - 29)%Z in
  let (labels, data) := daily_series last_30 (activity_qs last_30 (analyses db)) in
  {| total_analyses := total_analyses;
     total_feedback := total_feedback;
     avg_rating := avg_rating;
     feedback_rate := feedback_rate;
     star_stats := star_stats;
     recent_activity_labels := labels;
     recent_activity_data := data |}.

End Reports.

End Analytics.

(** ** [api/views.py]: the read-only views *)
Module ApiInfo.
Import Py Api.

Local Open Scope string_scope.


Definition model_info : Response :=
  {| body :=
       [("available_models",
         VList [VStr "baseline"; VStr "advanced"; VStr "ensemble"]);
        ("default_model", VStr "baseline")];
     status := HTTP_200_OK |}.

Definition health_check : Response :=
  {| body := [("status", VStr "healthy")]; status := HTTP_200_OK |}.

End ApiInfo.

(** ** Vocabulary of the statements, and the inputs of the examples *)
Module Samples.
Import Py.

Local Open Scope string_scope.
Local Open Scope Q_scope.

(** The fixed category set: the labels that key the classifier's tables. *)
Definition categories : list string := ["neutral"; "depression"; "anxiety"].

(** The three keyword-match counts of a text. *)
Definition depression_score (text : string) : Z :=
  Api.keyword_score Api.depression_keywords (lower text).
Definition anxiety_score (text : string) : Z :=
  Api.keyword_score Api.anxiety_keywords (lower text).
Definition neutral_score (text : string) : Z :=
  Api.keyword_score Api.neutral_keywords (lower text).

(** No category has a count strictly above both others. *)
Definition no_strict_winner (text : string) : Prop :=
  let d := depression_score text in
  let a := anxiety_score text in
  let n := neutral_score text in
  (~ (a < d /\ n < d) /\ ~ (d < a /\ n < a) /\ ~ (d < n /\ a < n))%Z.


(** The analyses of the store created on day [d], counted one by one. *)
Definition analyses_on (db : Analytics.store) (d : Analytics.date) : Z :=
  Analytics.count
    (filter (fun a => (Analytics.date_of (Analytics.created_at a) =? d)%Z)
       (Analytics.analyses db)).

(** The count that the activity series reads for day [d] in the grouped
    rows, and the order the grouped rows are kept in. *)
Definition rows_on (qs : list Analytics.day_count) (d : Analytics.date) : Z :=
  match Analytics.next_match qs d with
  | Some m => Analytics.day_rows m
  | None => 0%Z
  end.

Definition earlier (g1 g2 : Analytics.day_count) : Prop :=
  (Analytics.day g1 < Analytics.day g2)%Z.

(** The thirty days of the window that ends on [today]. *)
Definition window (today : Analytics.date) : list Analytics.date :=
  map (fun i => (today - 29 + i)%Z) (Analytics.range 30).


(** Random sources: every draw 0 (the lowest one), every draw one half. *)
Definition draws_low : rng := fun _ => 0.
Definition draws_mid : rng := fun _ => 0.5.

Definition anxious_text : string :=
  "I feel so anxious and overwhelmed about everything".
Definition tied_text : string := "sad and anxious today".

Definition request_of (data : dict value) : Api.Request :=
  {| Api.data := data;
     Api.session_key := None;
     Api.META := [("REMOTE_ADDR", "127.0.0.1")] |}.

Definition sample_env : Api.Env :=
  {| Api.rand := draws_mid;
     Api.time_start := 100;
     Api.time_end := 100.5;
     Api.uuid4 := "0f8fad5b-d9cb-469f-a165-70867728950e" |}.

(** The tables after one analysis of [anxious_text]. *)
Definition one_analysis : Api.tables :=
  fst (Api.analyze_text (request_of [("text", VStr anxious_text)])
         sample_env Api.empty_tables).

(** A reports store: ten analyses, one a day, and four feedbacks rated
    5, 5, 4 and 3. *)
Definition sample_analysis (n : Z) : Analytics.Analysis :=
  {| Analytics.id := n;
     Analytics.user := None;
     Analytics.input_text := "I am worried about tomorrow";
     Analytics.prediction := "neutral";
     Analytics.confidence := Some 0.5;
     Analytics.model_used := "baseline";
     Analytics.response_time := Some 0.4;
     Analytics.text_length := Some 27%Z;
     Analytics.created_at := (86400 * (19700 + n) + 3600)%Z |}.

Definition sample_feedback (n stars : Z) : Analytics.Feedback :=
  {| Analytics.feedback_id := n;
     Analytics.analysis := n;
     Analytics.feedback_user := None;
     Analytics.rating := stars;
     Analytics.feedback_text := None;
     Analytics.feedback_created_at := (86400 * 19711)%Z |}.

Definition sample_store : Analytics.store :=
  {| Analytics.analyses := map sample_analysis (Analytics.range 10);
     Analytics.feedbacks :=
       [sample_feedback 1 5; sample_feedback 2 5; sample_feedback 3 4;
        sample_feedback 4 3] |}.

End Samples.

(** ** Invariants of the tables *)
Module Invariants.
Import Py.

(** Every feedback row points to a row of the analyses table. *)
Definition feedbacks_reference_analyses (t : Api.tables) : Prop :=
  forall f : Api.UserFeedback,
    In f (Api.user_feedbacks t) ->
    exists a : Api.TextAnalysis,
      In a (Api.text_analyses t) /\ Api.id a = Api.analysis f.

(** The analyses have pairwise distinct identifiers. *)
Definition distinct_ids (t : Api.tables) : Prop :=
  NoDup (map Api.id (Api.text_analyses t)).


(** [r] is [x] rounded to two decimals: a whole number of hundredths, at
    most half a hundredth away from [x] (at a tie, either neighbour). *)
Definition two_decimals (x r : Q) : Prop :=
  (exists n : Z, r == inject_Z n / 100)%Q /\
  (x - 0.005 <= r <= x + 0.005)%Q.

(** The request passes the validation of [analyze_text]: its text is a
    string of 10 to 2000 characters once trimmed. *)
Definition valid_text (request : Api.Request) : bool :=
  match get_default (Api.data request) "text" (VStr "") with
  | VStr s => ((10 <=? len (strip s)) && (len (strip s) <=? 2000))%Z
  | _ => false
  end.

(** A call of one of the two writing views, and a run of calls. *)
Inductive call : Type :=
| Analyze (request : Api.Request) (env : Api.Env)
| Feedback (request : Api.Request).

Definition run_call (t : Api.tables) (c : call) : Api.tables :=
  match c with
  | Analyze request env => fst (Api.analyze_text request env t)
  | Feedback request => fst (Api.submit_feedback request t)
  end.

Definition run (calls : list call) (t : Api.tables) : Api.tables :=
  fold_left run_call calls t.


(** The analysis that [Samples.one_analysis] holds. *)
Definition recorded_row : Api.TextAnalysis :=
  hd {| Api.id := 0;
        Api.text_input := "";
        Api.text_length := 0;
        Api.prediction := "";
        Api.confidence_score := 0;
        Api.probabilities := [];
        Api.model_used := VNone;
        Api.processing_time := 0;
        Api.session_id := "";
        Api.ip_address := None;
        Api.user_agent := "" |}
     (Api.text_analyses Samples.one_analysis).

End Invariants.

(** ** [analytics/views.py]: [export_data] *)
Module CsvExport.
Import Py Analytics.

Local Open Scope string_scope.

(** The response: its [Content-Disposition] header, when set, and the rows
    handed to [csv.writer], cell by cell (their rendering as text is the
    [csv] module's). *)
Record HttpResponse : Type := {
  content_disposition : option string;
  rows : list (list value)
}.

(** [ordered] is what [rows.order_by('-created_at')] may return: the same
    rows, latest first; rows of equal time come in any order. *)
Definition ordered_latest_first {A : Type} (time : A -> datetime)
    (rows ordered : list A) : Prop :=
  Permutation rows ordered /\
  StronglySorted (fun x y => (time y <= time x)%Z) ordered.

(** [Feedback.objects.select_related('analysis')]: each feedback with the
    analysis it points to (an inner join on the foreign key). *)
Definition select_related (db : store) : list (Feedback * Analysis) :=
  flat_map
    (fun fb =>
       match find (fun a => (id a =? analysis fb)%Z) (analyses db) with
       | Some a => [(fb, a)]
       | None => []
       end)
    (feedbacks db).

Definition float_cell (x : option Q) : value :=
  match x with
  | Some q => VFloat q
  | None => VNone
  end.

Definition int_cell (n : option Z) : value :=
  match n with
  | Some z => VInt z
  | None => VNone
  end.

(** The double quote, and [attachment; filename="<name>"]. *)
Definition quote : string := String (ascii_of_nat 34) "".
Definition attachment (name : string) : string :=
  "attachment; filename=" ++ quote ++ name ++ quote.

Definition analyses_header : list value :=
  [VStr "ID"; VStr "Date"; VStr "Prediction"; VStr "Confidence";
   VStr "Model Used"; VStr "Response Time"; VStr "Text Length";
   VStr "Has Feedback"].

Definition feedback_header : list value :=
  [VStr "ID"; VStr "Date"; VStr "Rating"; VStr "Analysis ID";
   VStr "Prediction"; VStr "Confidence"; VStr "Feedback Text"].

Section Rows.

(** [dt.strftime('%Y-%m-%d %H:%M:%S')], the platform's rendering. *)
Variable strftime : datetime -> string.

Definition analysis_row (db : store) (a : Analysis) : list value :=
  [VStr (str_of_int (id a));
   VStr (strftime (created_at a));
   VStr (prediction a);
   float_cell (confidence a);
   VStr (model_used a);
   float_cell (response_time a);
   int_cell (text_length a);
   VBool (existsb (fun fb => (analysis fb =? id a)%Z) (feedbacks db))].

Definition feedback_row (joined : Feedback * Analysis) : list value :=
  let (fb, a) := joined in
  [VInt (feedback_id fb);
   VStr (strftime (feedback_created_at fb));
   VInt (rating fb);
   VStr (str_of_int (id a));
   VStr (prediction a);
   float_cell (confidence a);
   VStr (match feedback_text fb with
         | Some text => text
         | None => ""
         end)].

(** [export_data], given the query parameters and the rows as the two
    ordered queries return them. *)
Definition export_data (GET : dict string) (db : store)
    (analyses_latest_first : list Analysis)
    (feedback_latest_first : list (Feedback * Analysis)) : HttpResponse :=
  let export_type := get_default GET "type" "analyses" in
  if String.eqb export_type "analyses" then
    {| content_disposition := Some (attachment "analyses.csv");
       rows := analyses_header :: map (analysis_row db) analyses_latest_first |}
  else if String.eqb export_type "feedback" then
    {| content_disposition := Some (attachment "feedback.csv");
       rows := feedback_header :: map feedback_row feedback_latest_first |}
  else
    {| content_disposition := None; rows := [] |}.

End Rows.

End CsvExport.

(** ** Properties of the classifier and of the two API views *)
Module ApiFacts.
Import Py Api Samples.

Local Open Scope string_scope.
Local Open Scope Q_scope.

(** *** Arithmetic of the draws and of the clamp *)

Lemma clamp_bounds (x : Q) : 0.3 <= Qmin 0.95 (Qmax 0.3 x) <= 0.95.
Proof.
  split.
  - apply Q.min_glb; [lra | apply Q.le_max_l].
  - apply Q.le_min_l.
Qed.

Lemma clamp_id (x : Q) : 0.3 <= x <= 0.95 -> Qmin 0.95 (Qmax 0.3 x) == x.
Proof.
  intros [Hlo Hhi].
  rewrite (Q.max_r 0.3 x) by exact Hlo.
  apply Q.min_r. exact Hhi.
Qed.

Lemma draws_low_unit : unit_draws draws_low.
Proof. intro n. unfold draws_low. split; lra. Defined.

Lemma draws_mid_unit : unit_draws draws_mid.
Proof. intro n. unfold draws_mid. split; lra. Defined.

Lemma unit_draws_tail (g : rng) :
  unit_draws g -> unit_draws (fun n => g (S n)).
Proof. intros Hg n. apply Hg. Qed.

(** *** The classifier, as an equation on its three scores *)

Lemma choose_label (d a n : Z) : In (fst (choose d a n)) categories.
Proof.
  unfold choose, categories.
  destruct ((a <? d)%Z && (n <? d)%Z); [simpl; auto |].
  destruct ((d <? a)%Z && (n <? a)%Z); [simpl; auto |].
  destruct (0 <? n)%Z; simpl; auto.
Qed.

Lemma choose_neutral (d a n : Z) :
  ~ (a < d /\ n < d)%Z -> ~ (d < a /\ n < a)%Z ->
  fst (choose d a n) = "neutral".
Proof.
  intros Hd Ha. unfold choose.
  destruct ((a <? d)%Z && (n <? d)%Z) eqn:Ed.
  - apply andb_true_iff in Ed. destruct Ed as [E1 E2].
    apply Z.ltb_lt in E1, E2. tauto.
  - destruct ((d <? a)%Z && (n <? a)%Z) eqn:Ea.
    + apply andb_true_iff in Ea. destruct Ea as [E1 E2].
      apply Z.ltb_lt in E1, E2. tauto.
    + destruct (0 <? n)%Z; reflexivity.
Qed.

Lemma generate_demo_prediction_eq (text : string) (g : rng) :
  generate_demo_prediction text g =
  let pc := choose (depression_score text) (anxiety_score text)
              (neutral_score text) in
  let confidence :=
    Qmin 0.95 (Qmax 0.3 (snd pc + (-0.1 + (0.1 - -0.1) * g O))) in
  let pg := generate_probabilities (fst pc) confidence (fun n => g (S n)) in
  ((fst pc, confidence, fst pg), snd pg).
Proof.
  unfold generate_demo_prediction, uniform, random.
  unfold depression_score, anxiety_score, neutral_score.
  destruct (choose _ _ _) as [prediction base_confidence]. cbn [fst snd].
  destruct (generate_probabilities _ _ _) as [probabilities g2].
  reflexivity.
Qed.

(** *** The probability distribution *)

(** For a label of the category set, a confidence the clamp lets through
    and draws of [0, 1): the three keys are kept, every probability is
    non-negative, they add up to 1, the label holds the confidence, and
    the second of the other two labels holds what the first left. *)
Lemma generate_probabilities_spec (prediction : string) (confidence : Q)
    (g : rng) :
  In prediction categories ->
  0.3 <= confidence <= 0.95 ->
  unit_draws g ->
  let probs := fst (generate_probabilities prediction confidence g) in
  keys probs = categories /\
  (forall k v, In (k, v) probs -> 0 <= v) /\
  Py.sum (values probs) == 1 /\
  get probs prediction = Some confidence /\
  exists first last p,
    filter (fun k => negb (String.eqb k prediction)) (keys probs)
      = [first; last] /\
    get probs first = Some p /\
    get probs last = Some (1.0 - confidence - p).
Proof.
  intros Hp [Hlo Hhi] Hg. destruct (Hg O) as [Hu0 Hu1].
  unfold categories in Hp. simpl in Hp.
  destruct Hp as [<- | [<- | [<- | []]]]; cbn; unfold uniform, random; cbn.
  all: split; [reflexivity | split; [| split; [| split; [reflexivity |]]]].
  all: try (intros k v [E | [E | [E | []]]]; inversion E; subst; try lra; nra).
  all: try (unfold Py.sum; simpl; lra).
  all: do 3 eexists; split; [reflexivity | split; reflexivity].
Qed.

(** C1.  For every label of the category set, every confidence in
    [0.3, 0.95] (the values the classifier returns) and every sequence of
    draws in [0, 1), the distribution of [generate_probabilities] has only
    non-negative values, sums to 1, gives the winning label the confidence,
    and gives the last of the other labels the leftover. *)
Theorem generate_probabilities_distribution (prediction : string)
    (confidence : Q) (g : rng) :
  In prediction categories ->
  0.3 <= confidence <= 0.95 ->
  unit_draws g ->
  let probs := fst (generate_probabilities prediction confidence g) in
  (forall k v, In (k, v) probs -> 0 <= v) /\
  Py.sum (values probs) == 1 /\
  get probs prediction = Some confidence /\
  exists first last p,
    filter (fun k => negb (String.eqb k prediction)) (keys probs)
      = [first; last] /\
    get probs first = Some p /\
    get probs last = Some (1.0 - confidence - p).
Proof.
  intros Hp Hc Hg.
  destruct (generate_probabilities_spec prediction confidence g Hp Hc Hg)
    as (_ & Hpos & Hsum & Hwin & Hlast).
  cbv zeta. split; [exact Hpos | split; [exact Hsum | split; [exact Hwin |]]].
  exact Hlast.
Qed.

Lemma generate_probabilities_distribution_witness :
  let probs := fst (generate_probabilities "anxiety" 0.8 draws_mid) in
  (forall k v, In (k, v) probs -> 0 <= v) /\
  Py.sum (values probs) == 1 /\
  get probs "anxiety" = Some 0.8 /\
  exists first last p,
    filter (fun k => negb (String.eqb k "anxiety")) (keys probs)
      = [first; last] /\
    get probs first = Some p /\
    get probs last = Some (1.0 - 0.8 - p).
Proof.
  apply (generate_probabilities_distribution "anxiety" 0.8 draws_mid).
  - unfold categories. simpl. auto.
  - split; lra.
  - exact draws_mid_unit.
Defined.

(** *** Label and confidence *)

Lemma generate_demo_prediction_range (text : string) (g : rng) :
  let '(prediction, confidence, _, _) := generate_demo_prediction text g in
  In prediction categories /\ 0.3 <= confidence <= 0.95.
Proof.
  rewrite generate_demo_prediction_eq. cbv zeta.
  split; [apply choose_label | apply clamp_bounds].
Qed.

(** C4.  For every text whose trimmed length lies in [10, 2000] and every
    sequence of draws in [0, 1), the classifier returns a label of the
    category set and a confidence in [0.3, 0.95]. *)
Theorem classifier_label_and_confidence (text : string) (g : rng) :
  (10 <= len (strip text) <= 2000)%Z ->
  unit_draws g ->
  let '(prediction, confidence, _, _) :=
    generate_demo_prediction (strip text) g in
  In prediction categories /\ 0.3 <= confidence <= 0.95.
Proof.
  intros _ _.
  pose proof (generate_demo_prediction_range (strip text) g) as H.
  destruct (generate_demo_prediction (strip text) g)
    as [[[prediction confidence] probabilities] g'].
  exact H.
Qed.

Lemma classifier_label_and_confidence_witness :
  let '(prediction, confidence, _, _) :=
    generate_demo_prediction (strip anxious_text) draws_mid in
  In prediction categories /\ 0.3 <= confidence <= 0.95.
Proof.
  apply (classifier_label_and_confidence anxious_text draws_mid).
  - vm_compute. split; discriminate.
  - exact draws_mid_unit.
Defined.

(** C5.  When no category has a keyword count strictly above both others
    (a tie between the leading categories, or no match at all), the
    predicted label is the neutral one. *)
Theorem ties_default_to_neutral (text : string) (g : rng) :
  no_strict_winner text ->
  let '(prediction, _, _, _) := generate_demo_prediction text g in
  prediction = "neutral".
Proof.
  intros (Hd & Ha & _).
  rewrite generate_demo_prediction_eq. cbv zeta.
  apply choose_neutral; assumption.
Qed.

Lemma tied_text_scores :
  depression_score tied_text = 1%Z /\
  anxiety_score tied_text = 1%Z /\
  neutral_score tied_text = 0%Z.
Proof. repeat split; vm_compute; reflexivity. Defined.

Lemma ties_default_to_neutral_witness :
  let '(prediction, _, _, _) := generate_demo_prediction tied_text draws_mid in
  prediction = "neutral".
Proof.
  apply (ties_default_to_neutral tied_text draws_mid).
  unfold no_strict_winner.
  destruct tied_text_scores as (-> & -> & ->).
  cbv zeta. repeat split; lia.
Defined.

(** *** The worked example *)

Lemma anxious_text_scores :
  depression_score anxious_text = 0%Z /\
  anxiety_score anxious_text = 2%Z /\
  neutral_score anxious_text = 0%Z.
Proof. repeat split; vm_compute; reflexivity. Qed.

Lemma anxious_text_prediction (g : rng) :
  generate_demo_prediction anxious_text g =
  let confidence :=
    Qmin 0.95 (Qmax 0.3 (0.7 + 2 * 0.05 + (-0.1 + (0.1 - -0.1) * g O))) in
  let pg := generate_probabilities "anxiety" confidence (fun n => g (S n)) in
  (("anxiety", confidence, fst pg), snd pg).
Proof.
  rewrite generate_demo_prediction_eq.
  destruct anxious_text_scores as (-> & -> & ->).
  reflexivity.
Qed.

(** C9, as the code has it.  For the text "I feel so anxious and
    overwhelmed about everything" and every sequence of draws in [0, 1):
    the label is "anxiety", the confidence is at least 0.7 (and at most
    0.9), and the probabilities sum to 1. *)
Theorem anxious_example (g : rng) :
  unit_draws g ->
  let '(prediction, confidence, probabilities, _) :=
    generate_demo_prediction anxious_text g in
  prediction = "anxiety" /\
  0.7 <= confidence <= 0.9 /\
  Py.sum (values probabilities) == 1.
Proof.
  intros Hg. rewrite anxious_text_prediction. cbv zeta.
  destruct (Hg O) as [Hu0 Hu1].
  set (x := 0.7 + 2 * 0.05 + (-0.1 + (0.1 - -0.1) * g O)).
  assert (Hx : 0.3 <= x <= 0.95) by (unfold x; split; lra).
  pose proof (clamp_id x Hx) as Hc.
  split; [reflexivity |].
  split; [rewrite Hc; unfold x; split; lra |].
  apply generate_probabilities_spec.
  - unfold categories. simpl. auto.
  - apply clamp_bounds.
  - apply unit_draws_tail. exact Hg.
Qed.

Lemma anxious_example_witness :
  let '(prediction, confidence, probabilities, _) :=
    generate_demo_prediction anxious_text draws_mid in
  prediction = "anxiety" /\
  0.7 <= confidence <= 0.9 /\
  Py.sum (values probabilities) == 1.
Proof.
  apply (anxious_example draws_mid). exact draws_mid_unit.
Defined.

(** C9, as the claim states it, fails when the first draw is 0: the
    perturbation is then -0.1 and the confidence is 0.7, not above it. *)
Lemma anxious_example_confidence_not_above :
  unit_draws draws_low /\
  let '(_, confidence, _, _) := generate_demo_prediction anxious_text draws_low in
  ~ 0.7 < confidence.
Proof.
  split; [exact draws_low_unit |].
  vm_compute. intros H. discriminate H.
Qed.

(** *** The lookups *)

Lemma generate_message_found (prediction : string) (confidence : Q) :
  In prediction categories ->
  exists message, generate_message prediction confidence = Ok message.
Proof.
  unfold categories. simpl.
  intros [<- | [<- | [<- | []]]]; unfold generate_message, level; cbn;
    destruct (gt confidence 0.7); try (eexists; reflexivity);
    destruct (gt confidence 0.5); eexists; reflexivity.
Qed.

Lemma generate_recommendations_found (prediction : string) :
  In prediction categories ->
  exists recs, generate_recommendations prediction = Ok recs.
Proof.
  unfold categories. simpl.
  intros [<- | [<- | [<- | []]]]; eexists; reflexivity.
Qed.

Lemma generate_explanation_found (prediction : string) (confidence : Q)
    (text : string) :
  In prediction categories ->
  exists explanation,
    generate_explanation prediction confidence text = Ok explanation.
Proof.
  unfold categories. simpl.
  intros [<- | [<- | [<- | []]]]; unfold generate_explanation; cbn [getitem get explanations String.eqb Ascii.eqb Bool.eqb];
    eexists; reflexivity.
Qed.

(** C10.  The label that [generate_demo_prediction] returns is one of
    'neutral', 'depression' and 'anxiety'; hence, for that label and any
    confidence, the lookups of [generate_message],
    [generate_recommendations] and [generate_explanation] find their key:
    each returns, none raises. *)
Theorem lookups_never_raise (text : string) (g : rng) (confidence : Q)
    (text' : string) :
  let '(prediction, _, _, _) := generate_demo_prediction text g in
  In prediction ["neutral"; "depression"; "anxiety"] /\
  (exists message, generate_message prediction confidence = Ok message) /\
  (exists recs, generate_recommendations prediction = Ok recs) /\
  (exists explanation,
     generate_explanation prediction confidence text' = Ok explanation).
Proof.
  pose proof (generate_demo_prediction_range text g) as H.
  destruct (generate_demo_prediction text g)
    as [[[prediction c] probabilities] g'].
  destruct H as [Hin _].
  split; [exact Hin |].
  split; [apply generate_message_found; exact Hin |].
  split; [apply generate_recommendations_found; exact Hin |].
  apply generate_explanation_found; exact Hin.
Qed.

(** *** Validation in [analyze_text] *)

(** C2.  When the text of the request, once trimmed, is empty, shorter than
    10 characters or longer than 2000, [analyze_text] answers 400 and
    leaves the tables as they were: no analysis is recorded.  (A request
    without the key falls under the default [''].) *)
Theorem analyze_text_rejects_invalid_text (request : Request) (env : Env)
    (t : tables) (s : string) :
  get_default (data request) "text" (VStr "") = VStr s ->
  (len (strip s) < 10 \/ 2000 < len (strip s))%Z ->
  let (t', response) := analyze_text request env t in
  status response = HTTP_400_BAD_REQUEST /\ t' = t.
Proof.
  intros Htext Hlen.
  unfold analyze_text, analyze_text_try, bind, lift.
  rewrite Htext. cbn [value_strip].
  destruct (String.eqb (strip s) ""); [split; reflexivity |].
  destruct (len (strip s) <? 10)%Z eqn:Eshort; [split; reflexivity |].
  destruct (2000 <? len (strip s))%Z eqn:Elong; [split; reflexivity |].
  apply Z.ltb_ge in Eshort, Elong. lia.
Qed.

Lemma analyze_text_rejects_invalid_text_witness :
  let (t', response) :=
    analyze_text (request_of [("text", VStr "hi")]) sample_env one_analysis in
  status response = HTTP_400_BAD_REQUEST /\ t' = one_analysis.
Proof.
  apply (analyze_text_rejects_invalid_text
           (request_of [("text", VStr "hi")]) sample_env one_analysis "hi").
  - reflexivity.
  - left. vm_compute. reflexivity.
Defined.

(** *** [submit_feedback] *)






(** C8 at its failing input.  With one analysis recorded (its identifier
    is 1), the submission [{analysis_id: 1, rating: 7}] is answered 201
    and a feedback row with rating 7 is stored, so a persisted rating
    lies outside 1..5. *)
Lemma feedback_rating_out_of_range_is_stored :
  let (t', response) :=
    submit_feedback
      (request_of [("analysis_id", VInt 1); ("rating", VInt 7)])
      one_analysis in
  user_feedbacks one_analysis = [] /\
  status response = HTTP_201_CREATED /\
  map rating (user_feedbacks t') = [7%Z].
Proof.
  vm_compute. split; [reflexivity |]. split; reflexivity.
Qed.

End ApiFacts.

(** ** Properties of [reports_view] *)
Module AnalyticsFacts.
Import Py Analytics Samples.

Local Open Scope Z_scope.

(** *** Counting *)

Lemma count_cons {A : Type} (x : A) (l : list A) : count (x :: l) = count l + 1.
Proof. unfold count. cbn [length]. lia. Qed.

Lemma count_nil {A : Type} : count (@nil A) = 0.
Proof. reflexivity. Qed.

Lemma filter_length_perm {A : Type} (p : A -> bool) (l l' : list A) :
  Permutation l l' -> length (filter p l) = length (filter p l').
Proof.
  induction 1 as [| x l l' _ IH | x y l | l l' l'' _ IH1 _ IH2]; cbn [filter].
  - reflexivity.
  - destruct (p x); cbn [length]; congruence.
  - destruct (p x), (p y); reflexivity.
  - congruence.
Qed.

Lemma fold_add_perm (l l' : list Z) :
  Permutation l l' ->
  forall acc, fold_left Z.add l acc = fold_left Z.add l' acc.
Proof.
  induction 1 as [| x l l' _ IH | x y l | l l' l'' _ IH1 _ IH2];
    intros acc; cbn [fold_left].
  - reflexivity.
  - apply IH.
  - f_equal. lia.
  - rewrite IH1. apply IH2.
Qed.

(** *** The groups of [activity_qs] *)

Lemma next_match_above (d : date) (groups : list day_count) :
  Forall (fun g => d < day g) groups -> next_match groups d = None.
Proof.
  unfold next_match.
  induction 1 as [| g rest Hg _ IH]; cbn [find]; [reflexivity |].
  destruct (day g =? d) eqn:E; [apply Z.eqb_eq in E; lia | exact IH].
Qed.

Lemma add_to_day_Forall (P : date -> Prop) (d : date)
    (groups : list day_count) :
  P d -> Forall (fun g => P (day g)) groups ->
  Forall (fun g => P (day g)) (add_to_day d groups).
Proof.
  intros Hd. induction 1 as [| g rest Hg Hrest IH]; cbn [add_to_day].
  - constructor; [exact Hd | constructor].
  - destruct (d <? day g).
    + constructor; [exact Hd | constructor; assumption].
    + destruct (d =? day g); constructor; assumption.
Qed.

Lemma add_to_day_sorted (d : date) (groups : list day_count) :
  StronglySorted earlier groups ->
  StronglySorted earlier (add_to_day d groups).
Proof.
  induction 1 as [| g rest Hsorted IH Hhead]; cbn [add_to_day].
  - constructor; constructor.
  - destruct (d <? day g) eqn:Elt.
    + apply Z.ltb_lt in Elt. constructor.
      * constructor; assumption.
      * constructor; [exact Elt |].
        eapply Forall_impl; [| exact Hhead].
        intros g' Hg'. unfold earlier in *. cbn [day]. lia.
    + apply Z.ltb_ge in Elt. destruct (d =? day g) eqn:Eeq.
      * constructor; [exact Hsorted | exact Hhead].
      * apply Z.eqb_neq in Eeq. constructor; [exact IH |].
        apply (add_to_day_Forall (fun x => day g < x)); [lia | exact Hhead].
Qed.

Lemma rows_on_cons (g : day_count) (rest : list day_count) (d : date) :
  rows_on (g :: rest) d = if day g =? d then day_rows g else rows_on rest d.
Proof.
  unfold rows_on, next_match. cbn [find].
  destruct (day g =? d); reflexivity.
Qed.

Lemma rows_on_above (d : date) (groups : list day_count) :
  Forall (fun g => d < day g) groups -> rows_on groups d = 0.
Proof.
  intros H. unfold rows_on. rewrite (next_match_above d groups H). reflexivity.
Qed.

Lemma rows_on_add (d d' : date) (groups : list day_count) :
  StronglySorted earlier groups ->
  rows_on (add_to_day d' groups) d
  = rows_on groups d + (if d' =? d then 1 else 0).
Proof.
  induction 1 as [| g rest Hsorted IH Hhead]; cbn [add_to_day].
  - rewrite rows_on_cons. cbn [day day_rows].
    destruct (d' =? d); reflexivity.
  - destruct (d' <? day g) eqn:Elt.
    + apply Z.ltb_lt in Elt.
      rewrite (rows_on_cons {| day := d'; day_rows := 1 |}). cbn [day day_rows].
      destruct (d' =? d) eqn:Ed; [| lia].
      apply Z.eqb_eq in Ed. subst d'.
      rewrite (rows_on_above d (g :: rest)); [reflexivity |].
      constructor; [exact Elt |].
      eapply Forall_impl; [| exact Hhead].
      intros g' Hg'. unfold earlier in Hg'. lia.
    + destruct (d' =? day g) eqn:Eeq.
      * apply Z.eqb_eq in Eeq. subst d'.
        rewrite !rows_on_cons. cbn [day day_rows].
        destruct (day g =? d); lia.
      * apply Z.eqb_neq in Eeq.
        rewrite !rows_on_cons.
        destruct (day g =? d) eqn:Egd; [| exact IH].
        apply Z.eqb_eq in Egd.
        destruct (d' =? d) eqn:Ed; [apply Z.eqb_eq in Ed; lia | lia].
Qed.

Lemma groups_sorted (ds : list date) :
  StronglySorted earlier (fold_right add_to_day [] ds).
Proof.
  induction ds as [| d ds IH]; cbn [fold_right].
  - constructor.
  - apply add_to_day_sorted. exact IH.
Qed.

(** Grouping then looking a day up counts the analyses of that day, for
    every day that the filter of the query keeps. *)
Lemma activity_rows (last_30 d : date) (rows : list Analysis) :
  last_30 <= d ->
  rows_on (activity_qs last_30 rows) d
  = count (filter (fun a => date_of (created_at a) =? d) rows).
Proof.
  intros Hd. unfold activity_qs.
  induction rows as [| a rows IH]; cbn [filter map fold_right].
  - reflexivity.
  - destruct (last_30 <=? date_of (created_at a)) eqn:Ekeep;
      cbn [map fold_right].
    + rewrite rows_on_add by apply groups_sorted. rewrite IH.
      destruct (date_of (created_at a) =? d); [rewrite count_cons |]; lia.
    + apply Z.leb_gt in Ekeep.
      destruct (date_of (created_at a) =? d) eqn:Eday; [| exact IH].
      apply Z.eqb_eq in Eday. lia.
Qed.

(** *** The loop of the series *)

Lemma loop_as_maps {A B : Type} (f : Z -> A) (h : Z -> B) (xs : list Z) :
  forall (labels : list A) (data : list B),
    fold_left
      (fun (acc : list A * list B) (i : Z) =>
         let (labels, data) := acc in (labels ++ [f i], data ++ [h i]))
      xs (labels, data)
    = (labels ++ map f xs, data ++ map h xs).
Proof.
  induction xs as [| x xs IH]; intros labels data; cbn [fold_left map].
  - rewrite !app_nil_r. reflexivity.
  - rewrite IH. rewrite <- !app_assoc. reflexivity.
Qed.

Lemma daily_series_eq (strftime : date -> string) (last_30 : date)
    (qs : list day_count) :
  daily_series strftime last_30 qs
  = (map (fun i => strftime (last_30 + i)) (range 30),
     map (fun i => rows_on qs (last_30 + i)) (range 30)).
Proof.
  unfold daily_series.
  exact (loop_as_maps (fun i => strftime (last_30 + i))
           (fun i => rows_on qs (last_30 + i)) (range 30) [] []).
Qed.

Lemma window_from (today d : date) : In d (window today) -> today - 29 <= d.
Proof.
  unfold window, range. rewrite map_map. intros Hin.
  apply in_map_iff in Hin. destruct Hin as (n & <- & _). lia.
Qed.

Lemma reports_view_series (strftime : date -> string) (now : datetime)
    (db : store) :
  recent_activity_labels (reports_view strftime now db)
    = map strftime (window (date_of now)) /\
  recent_activity_data (reports_view strftime now db)
    = map (analyses_on db) (window (date_of now)).
Proof.
  unfold reports_view. rewrite daily_series_eq.
  cbn [recent_activity_labels recent_activity_data].
  unfold window. rewrite !map_map. split; [reflexivity |].
  apply map_ext_in. intros i Hi.
  unfold analyses_on. apply activity_rows.
  unfold range in Hi. apply in_map_iff in Hi. destruct Hi as (n & <- & _). lia.
Qed.

(** C7.  For every store and every current time, the activity series of
    [reports_view] is built on thirty days: each day is the day after the
    one before it, the last one is today, the labels are these days
    rendered in order, and the data are, day by day, the number of
    analyses created that day, so a day without analyses is present with
    count 0. *)
Theorem recent_activity_is_dense (strftime : date -> string) (now : datetime)
    (db : store) :
  let ctx := reports_view strftime now db in
  exists days : list date,
    length days = 30%nat /\
    map (fun d => d + 1) (removelast days) = tl days /\
    last days 0 = date_of now /\
    recent_activity_labels ctx = map strftime days /\
    recent_activity_data ctx = map (analyses_on db) days /\
    length (recent_activity_labels ctx) = 30%nat /\
    length (recent_activity_data ctx) = 30%nat.
Proof.
  cbv zeta.
  destruct (reports_view_series strftime now db) as [Hlabels Hdata].
  exists (window (date_of now)).
  rewrite Hlabels, Hdata, !length_map.
  set (today := date_of now).
  split; [reflexivity |].
  split; [unfold window; cbn; repeat (f_equal; try lia) |].
  split; [unfold window; cbn; lia |].
  repeat split; reflexivity.
Qed.

(** *** Core statistics *)

Local Open Scope Q_scope.

Lemma reports_view_core (strftime : date -> string) (now : datetime)
    (db : store) :
  let ctx := reports_view strftime now db in
  let total_analyses := count (analyses db) in
  let total_feedback := count (feedbacks db) in
  feedback_rate ctx
    = (if (total_analyses =? 0)%Z then 0
       else round (inject_Z total_feedback / inject_Z total_analyses * 100) 2) /\
  avg_rating ctx = or_zero (Avg_rating (feedbacks db)) /\
  star_stats ctx
    = map (fun star =>
             let n :=
               count (filter (fun f => (rating f =? star)%Z) (feedbacks db)) in
             {| star := star;
                star_count := n;
                percentage :=
                  if (total_feedback =? 0)%Z then 0
                  else round (inject_Z n / inject_Z total_feedback * 100) 2 |})
          stars.
Proof.
  cbv zeta. unfold reports_view.
  destruct (daily_series _ _ _) as [labels data].
  cbn [feedback_rate avg_rating star_stats].
  destruct (count (analyses db) =? 0)%Z, (count (feedbacks db) =? 0)%Z;
    repeat split; reflexivity.
Qed.

Lemma rated_count (fbs : list Feedback) (stars : Z) :
  count (filter (fun f => (rating f =? stars)%Z) fbs)
  = count (filter (fun r => (r =? stars)%Z) (map rating fbs)).
Proof.
  unfold count. rewrite filter_map_swap, length_map. reflexivity.
Qed.

Lemma Avg_rating_some (fbs : list Feedback) :
  fbs <> [] ->
  Avg_rating fbs
  = Some (inject_Z (fold_left Z.add (map rating fbs) 0%Z) / inject_Z (count fbs)).
Proof. destruct fbs as [| f fbs]; [congruence | reflexivity]. Qed.

Lemma round_half_even_close (x : Q) :
  x - 0.5 <= inject_Z (round_half_even x) <= x + 0.5.
Proof.
  unfold round_half_even.
  pose proof (Qfloor_le x) as Hfloor.
  pose proof (Qlt_floor x) as Hnext.
  rewrite inject_Z_plus in Hnext. change (inject_Z 1) with 1 in Hnext.
  destruct (Qcompare (x - inject_Z (Qfloor x)) 0.5) eqn:Ecmp.
  - apply Qeq_alt in Ecmp.
    destruct (Z.even (Qfloor x)).
    + split; lra.
    + rewrite inject_Z_plus. change (inject_Z 1) with 1. split; lra.
  - apply Qlt_alt in Ecmp. split; lra.
  - apply Qgt_alt in Ecmp. rewrite inject_Z_plus. change (inject_Z 1) with 1.
    split; lra.
Qed.

Lemma round_two_close (x : Q) : x - 0.005 <= round x 2 <= x + 0.005.
Proof.
  unfold round.
  change (inject_Z (10 ^ Z.of_nat 2)) with 100.
  pose proof (round_half_even_close (x * 100)) as Hclose.
  set (z := inject_Z (round_half_even (x * 100))) in *.
  unfold Qdiv. change (/ 100) with 0.01. split; lra.
Qed.

Lemma round_two_hundredths (x : Q) :
  exists n : Z, round x 2 == inject_Z n / 100.
Proof.
  exists (round_half_even (x * 100)). unfold round.
  change (inject_Z (10 ^ Z.of_nat 2)) with 100. reflexivity.
Qed.

(** C6.  For every store: [feedback_rate] is 0 when there is no analysis
    and otherwise [total_feedback / total_analyses * 100] rounded to two
    decimals, that is a whole number of hundredths at most 0.005 away
    from it; it is 0 without analyses whatever feedback rows there are;
    and with 10 analyses and four feedbacks rated 5, 5, 4 and 3 (in any
    order) the rate is 40, the average rating 4.25, and the entry of
    [star_stats] for 5 stars has count 2 and percentage 50. *)
Theorem feedback_rate_and_stars (strftime : date -> string) (now : datetime)
    (db : store) (orphans : list Feedback) :
  let ctx := reports_view strftime now db in
  (if (count (analyses db) =? 0)%Z then feedback_rate ctx = 0
   else Invariants.two_decimals
          (inject_Z (count (feedbacks db))
           / inject_Z (count (analyses db)) * 100)
          (feedback_rate ctx)) /\
  feedback_rate
    (reports_view strftime now {| analyses := []; feedbacks := orphans |}) = 0 /\
  (count (analyses db) = 10%Z ->
   Permutation (map rating (feedbacks db)) [5; 5; 4; 3]%Z ->
   feedback_rate ctx == 40.0 /\
   avg_rating ctx == 4.25 /\
   exists s,
     find (fun s => (star s =? 5)%Z) (star_stats ctx) = Some s /\
     star_count s = 2%Z /\
     percentage s == 50.0).
Proof.
  cbv zeta.
  destruct (reports_view_core strftime now db) as (Hrate & Havg & Hstars).
  split.
  { rewrite Hrate. destruct (count (analyses db) =? 0)%Z; [reflexivity |].
    split; [apply round_two_hundredths | apply round_two_close]. }
  split.
  { destruct (reports_view_core strftime now
                {| analyses := []; feedbacks := orphans |}) as (H0 & _).
    rewrite H0. reflexivity. }
  intros Hten Hperm.
  assert (Hfour : count (feedbacks db) = 4%Z).
  { unfold count. rewrite <- (length_map rating).
    rewrite (Permutation_length Hperm). reflexivity. }
  assert (Hsum : fold_left Z.add (map rating (feedbacks db)) 0%Z = 17%Z).
  { rewrite (fold_add_perm _ _ Hperm). reflexivity. }
  assert (Hfive : count (filter (fun f => (rating f =? 5)%Z) (feedbacks db))
                  = 2%Z).
  { rewrite rated_count. unfold count.
    rewrite (filter_length_perm _ _ _ Hperm). reflexivity. }
  assert (Hsome : feedbacks db <> []).
  { intros Hnil. rewrite Hnil in Hfour. discriminate Hfour. }
  split; [| split].
  - rewrite Hrate, Hten, Hfour. vm_compute. reflexivity.
  - rewrite Havg, (Avg_rating_some _ Hsome), Hsum, Hfour.
    vm_compute. reflexivity.
  - rewrite Hstars. unfold stars. cbn [map find star Z.eqb Pos.eqb].
    eexists. split; [reflexivity |].
    cbn [star_count percentage]. rewrite Hfive, Hfour.
    split; [reflexivity | vm_compute; reflexivity].
Qed.

Lemma feedback_rate_and_stars_witness :
  let ctx := reports_view (fun _ => ""%string) 1702864800%Z sample_store in
  feedback_rate ctx == 40.0 /\
  avg_rating ctx == 4.25 /\
  exists s,
    find (fun s => (star s =? 5)%Z) (star_stats ctx) = Some s /\
    star_count s = 2%Z /\
    percentage s == 50.0.
Proof.
  apply (feedback_rate_and_stars (fun _ => ""%string) 1702864800%Z sample_store []).
  - reflexivity.
  - apply Permutation_refl.
Defined.

End AnalyticsFacts.

(** ** Further properties of the API views *)
Module ApiExtra.
Import Py Api ApiInfo Samples Invariants.

Local Open Scope string_scope.
Local Open Scope Q_scope.

(** *** What [analyze_text] does with a text that passes validation *)

(** The row that [analyze_text] stores and the fields of its answer, for a
    request whose trimmed text is [text]. *)
Lemma analyze_text_accepts (request : Request) (env : Env) (t : tables)
    (s : string) :
  get_default (data request) "text" (VStr "") = VStr s ->
  (10 <= len (strip s) <= 2000)%Z ->
  exists (row : TextAnalysis) (response : Response) (message : string)
         (recs : list string),
    analyze_text request env t
      = ({| text_analyses := text_analyses t ++ [row];
            analysis_seq := (analysis_seq t + 1)%Z;
            user_feedbacks := user_feedbacks t;
            feedback_seq := feedback_seq t |}, response) /\
    (exists g',
       generate_demo_prediction (strip s) (snd (uniform 0.3 0.8 (rand env)))
       = (prediction row, confidence_score row, probabilities row, g')) /\
    id row = (analysis_seq t + 1)%Z /\
    text_input row = strip s /\
    text_length row = len (strip s) /\
    model_used row = get_default (data request) "model" (VStr "baseline") /\
    ip_address row = get_client_ip request /\
    generate_message (prediction row) (confidence_score row) = Ok message /\
    generate_recommendations (prediction row) = Ok recs /\
    status response = HTTP_200_OK /\
    get (body response) "id" = Some (VStr (str_of_int (id row))) /\
    get (body response) "prediction" = Some (VStr (prediction row)) /\
    get (body response) "confidence" = Some (VFloat (confidence_score row)) /\
    get (body response) "text_length" = Some (VInt (text_length row)) /\
    get (body response) "model_used" = Some (model_used row) /\
    get (body response) "message" = Some (VStr message) /\
    get (body response) "recommendations" = Some (VList (map VStr recs)) /\
    (truthy (get_default (data request) "explain" (VBool false)) = true ->
     exists explanation,
       generate_explanation (prediction row) (confidence_score row) (strip s)
         = Ok explanation /\
       get (body response) "explanation" = Some (VDict explanation)) /\
    (truthy (get_default (data request) "explain" (VBool false)) = false ->
     get (body response) "explanation" = None).
Proof.
  intros Htext [Hlo Hhi].
  unfold analyze_text, analyze_text_try, bind, lift.
  rewrite Htext. cbn [value_strip].
  set (text := strip s) in *.
  destruct (String.eqb text "") eqn:Eempty.
  { apply String.eqb_eq in Eempty. rewrite Eempty in Hlo.
    vm_compute in Hlo. exfalso. apply Hlo. reflexivity. }
  destruct (len text <? 10)%Z eqn:Eshort; [apply Z.ltb_lt in Eshort; lia |].
  destruct (2000 <? len text)%Z eqn:Elong; [apply Z.ltb_lt in Elong; lia |].
  destruct (uniform 0.3 0.8 (rand env)) as [pause g] eqn:Epause.
  cbn [snd].
  pose proof (ApiFacts.generate_demo_prediction_range text g) as Hrange.
  destruct (generate_demo_prediction text g)
    as [[[label conf] probs] g'] eqn:Epred.
  destruct Hrange as [Hlabel _].
  destruct (ApiFacts.generate_message_found label conf Hlabel)
    as [message Hmessage].
  destruct (ApiFacts.generate_recommendations_found label Hlabel)
    as [recs Hrecs].
  destruct (ApiFacts.generate_explanation_found label conf text Hlabel)
    as [explanation Hexplanation].
  unfold TextAnalysis_create, ret.
  rewrite Hmessage, Hrecs.
  destruct (truthy (get_default (data request) "explain" (VBool false)))
    eqn:Eexplain.
  - rewrite Hexplanation.
    eexists. eexists. exists message, recs.
    split; [reflexivity |].
    cbn [prediction confidence_score probabilities id text_input text_length
         model_used ip_address status body].
    split; [exists g'; reflexivity |].
    repeat (split; [first [reflexivity | assumption] |]).
    split; [| intros H; discriminate H].
    intros _. exists explanation. split; [exact Hexplanation | reflexivity].
  - eexists. eexists. exists message, recs.
    split; [reflexivity |].
    cbn [prediction confidence_score probabilities id text_input text_length
         model_used ip_address status body].
    split; [exists g'; reflexivity |].
    repeat (split; [first [reflexivity | assumption] |]).
    split; [intros H; discriminate H | intros _; reflexivity].
Qed.

(** A request whose text is a string outside the accepted lengths is
    answered 400 and writes nothing. *)
Lemma analyze_text_refuses (request : Request) (env : Env) (t : tables)
    (s : string) :
  get_default (data request) "text" (VStr "") = VStr s ->
  ~ (10 <= len (strip s) <= 2000)%Z ->
  exists message,
    analyze_text request env t
    = (t, {| body := [("error", VStr message)];
             status := HTTP_400_BAD_REQUEST |}).
Proof.
  intros Htext Hlen.
  unfold analyze_text, analyze_text_try, bind, lift.
  rewrite Htext. cbn [value_strip].
  destruct (String.eqb (strip s) ""); [eexists; reflexivity |].
  destruct (len (strip s) <? 10)%Z eqn:Eshort; [eexists; reflexivity |].
  destruct (2000 <? len (strip s))%Z eqn:Elong; [eexists; reflexivity |].
  apply Z.ltb_ge in Eshort, Elong. lia.
Qed.

(** A request whose text is not a string is answered 500 and writes
    nothing: [.strip()] raises and the [except] catches it. *)
Lemma analyze_text_fails (request : Request) (env : Env) (t : tables) :
  (forall s, get_default (data request) "text" (VStr "") <> VStr s) ->
  analyze_text request env t
  = (t, {| body := [("error", VStr "Analysis failed. Please try again.")];
           status := HTTP_500_INTERNAL_SERVER_ERROR |}).
Proof.
  intros Hnot.
  unfold analyze_text, analyze_text_try, bind, lift.
  destruct (get_default (data request) "text" (VStr "")) as [| b | n | x | s | l | d];
    try reflexivity.
  exfalso. apply (Hnot s). reflexivity.
Qed.



(** X2.  Whatever the request, [analyze_text] either answers 200 and has
    added exactly one analysis, or answers 400 or 500 and has left the
    tables as they were: a row is written exactly when the answer is
    200. *)
Theorem analyze_text_writes_iff_ok (request : Request) (env : Env)
    (t : tables) :
  let (t', response) := analyze_text request env t in
  (status response = HTTP_200_OK /\
   exists row, text_analyses t' = (text_analyses t ++ [row])%list) \/
  ((status response = HTTP_400_BAD_REQUEST \/
    status response = HTTP_500_INTERNAL_SERVER_ERROR) /\ t' = t).
Proof.
  destruct (get_default (data request) "text" (VStr "")) as [| b | n | x | s | l | d] eqn:Etext.
  5: {
    destruct (Z_le_dec 10 (len (strip s))) as [Hlo |];
      [destruct (Z_le_dec (len (strip s)) 2000) as [Hhi |] |].
    - destruct (analyze_text_accepts request env t s Etext (conj Hlo Hhi))
        as (row & response & _ & _ & Hrun & _ & _ & _ & _ & _ & _ & _ & _
            & Hstatus & _).
      rewrite Hrun. left. split; [exact Hstatus |]. exists row. reflexivity.
    - destruct (analyze_text_refuses request env t s Etext) as [m Hrun];
        [lia |].
      rewrite Hrun. right. split; [left |]; reflexivity.
    - destruct (analyze_text_refuses request env t s Etext) as [m Hrun];
        [lia |].
      rewrite Hrun. right. split; [left |]; reflexivity. }
  all: rewrite (analyze_text_fails request env t)
         by (intros s; rewrite Etext; discriminate);
       right; split; [right |]; reflexivity.
Qed.

(** X3.  A request whose ["text"] is present but is not a string (a JSON
    null, number, boolean, array or object) is answered 500, not 400, and
    records nothing. *)
Theorem analyze_text_non_string_text (request : Request) (env : Env)
    (t : tables) :
  (forall s, get_default (data request) "text" (VStr "") <> VStr s) ->
  let (t', response) := analyze_text request env t in
  status response = HTTP_500_INTERNAL_SERVER_ERROR /\
  get (body response) "error" = Some (VStr "Analysis failed. Please try again.") /\
  t' = t.
Proof.
  intros Hnot. rewrite (analyze_text_fails request env t Hnot).
  split; [reflexivity |]. split; reflexivity.
Qed.

Lemma analyze_text_non_string_text_witness :
  let (t', response) :=
    analyze_text (request_of [("text", VNone)]) sample_env one_analysis in
  status response = HTTP_500_INTERNAL_SERVER_ERROR /\
  get (body response) "error" = Some (VStr "Analysis failed. Please try again.") /\
  t' = one_analysis.
Proof.
  apply (analyze_text_non_string_text (request_of [("text", VNone)])
           sample_env one_analysis).
  intros s. cbv. discriminate.
Defined.

(** X4.  In the answer to an accepted request the key ["explanation"] is
    present exactly when the request's ["explain"] is truthy; without the
    key in the request it is absent. *)
Theorem explanation_only_on_request (request : Request) (env : Env)
    (t : tables) (s : string) :
  get_default (data request) "text" (VStr "") = VStr s ->
  (10 <= len (strip s) <= 2000)%Z ->
  let response := snd (analyze_text request env t) in
  (get (body response) "explanation" <> None <->
   truthy (get_default (data request) "explain" (VBool false)) = true) /\
  (get (data request) "explain" = None ->
   get (body response) "explanation" = None).
Proof.
  intros Htext Hlen.
  destruct (analyze_text_accepts request env t s Htext Hlen)
    as (row & response & message & recs & Hrun & _ & _ & _ & _ & _ & _ & _
        & _ & _ & _ & _ & _ & _ & _ & _ & _ & Hyes & Hno).
  rewrite Hrun. cbn [snd].
  destruct (truthy (get_default (data request) "explain" (VBool false)))
    eqn:Eexplain.
  - destruct (Hyes eq_refl) as (explanation & _ & Hkey).
    split.
    + split; [reflexivity | intros _; rewrite Hkey; discriminate].
    + intros Hmissing. unfold get_default in Eexplain.
      rewrite Hmissing in Eexplain. discriminate Eexplain.
  - split.
    + split; [intros Hsome; elim Hsome; apply Hno; reflexivity
             | intros H; discriminate H].
    + intros _. apply Hno. reflexivity.
Qed.

Lemma explanation_only_on_request_witness :
  let response :=
    snd (analyze_text
           (request_of [("text", VStr anxious_text); ("explain", VInt 1)])
           sample_env one_analysis) in
  (get (body response) "explanation" <> None <->
   truthy (get_default
             (data (request_of [("text", VStr anxious_text); ("explain", VInt 1)]))
             "explain" (VBool false)) = true) /\
  (get (data (request_of [("text", VStr anxious_text); ("explain", VInt 1)]))
     "explain" = None ->
   get (body response) "explanation" = None).
Proof.
  apply (explanation_only_on_request
           (request_of [("text", VStr anxious_text); ("explain", VInt 1)])
           sample_env one_analysis anxious_text).
  - reflexivity.
  - vm_compute. split; discriminate.
Defined.

(** X5.  A request that names no ["model"] is recorded with the model that
    [model_info] advertises as the default, and that model is one of the
    available ones. *)
Theorem default_model_is_advertised (request : Request) (env : Env)
    (t : tables) (s : string) :
  get_default (data request) "text" (VStr "") = VStr s ->
  (10 <= len (strip s) <= 2000)%Z ->
  get (data request) "model" = None ->
  exists row available,
    text_analyses (fst (analyze_text request env t))
      = (text_analyses t ++ [row])%list /\
    get (body model_info) "default_model" = Some (model_used row) /\
    get (body model_info) "available_models" = Some (VList available) /\
    In (model_used row) available.
Proof.
  intros Htext Hlen Hmodel.
  destruct (analyze_text_accepts request env t s Htext Hlen)
    as (row & response & _ & _ & Hrun & _ & _ & _ & _ & Hused & _).
  unfold get_default in Hused. rewrite Hmodel in Hused.
  exists row. eexists. rewrite Hrun, Hused.
  split; [reflexivity |]. split; [reflexivity |]. split; [reflexivity |].
  left. reflexivity.
Qed.

Lemma default_model_is_advertised_witness :
  exists row available,
    text_analyses
      (fst (analyze_text (request_of [("text", VStr anxious_text)])
              sample_env Api.empty_tables))
      = (text_analyses Api.empty_tables ++ [row])%list /\
    get (body model_info) "default_model" = Some (model_used row) /\
    get (body model_info) "available_models" = Some (VList available) /\
    In (model_used row) available.
Proof.
  apply (default_model_is_advertised (request_of [("text", VStr anxious_text)])
           sample_env Api.empty_tables anxious_text).
  - reflexivity.
  - vm_compute. split; discriminate.
  - reflexivity.
Defined.

(** *** [submit_feedback] *)

Lemma TextAnalysis_get_reads (analysis_id : value) (t : tables) :
  fst (TextAnalysis_get analysis_id t) = t.
Proof.
  unfold TextAnalysis_get.
  destruct (prep_int analysis_id) as [key | e]; [| reflexivity].
  match goal with
  | |- context [filter ?f (text_analyses t)] =>
      destruct (filter f (text_analyses t)) as [| a [| b rest]]
  end; reflexivity.
Qed.

Lemma TextAnalysis_get_found (analysis_id : value) (t : tables)
    (a : TextAnalysis) :
  snd (TextAnalysis_get analysis_id t) = Ok a ->
  In a (text_analyses t) /\ prep_int analysis_id = Ok (Some (id a)).
Proof.
  unfold TextAnalysis_get.
  destruct (prep_int analysis_id) as [key | e]; [| discriminate].
  match goal with
  | |- context [filter ?f (text_analyses t)] =>
      set (hit := f);
      destruct (filter hit (text_analyses t)) as [| b [| c rest]] eqn:Ehits
  end; cbn [snd]; try discriminate.
  intros Hok. injection Hok as <-.
  assert (Hin : In b (filter hit (text_analyses t)))
    by (rewrite Ehits; left; reflexivity).
  apply filter_In in Hin. destruct Hin as [Hin Hhit].
  split; [exact Hin |].
  unfold hit in Hhit. destruct key as [n |]; [| discriminate Hhit].
  apply Z.eqb_eq in Hhit. rewrite Hhit. reflexivity.
Qed.

(** The two outcomes of [submit_feedback]. *)
Lemma submit_feedback_outcomes (request : Request) (t : tables) :
  (exists a r,
     In a (text_analyses t) /\
     prep_int (get_default (data request) "analysis_id" VNone)
       = Ok (Some (id a)) /\
     prep_int (get_default (data request) "rating" VNone) = Ok (Some r) /\
     fits_column r = true /\
     submit_feedback request t
     = ({| text_analyses := text_analyses t;
           analysis_seq := analysis_seq t;
           user_feedbacks :=
             user_feedbacks t
               ++ [{| feedback_id := (feedback_seq t + 1)%Z;
                      analysis := id a;
                      rating := r |}];
           feedback_seq := (feedback_seq t + 1)%Z |},
        {| body := [("message", VStr "Feedback submitted")];
           status := HTTP_201_CREATED |})) \/
  (exists e,
     submit_feedback request t
     = (t, {| body := [("error", VStr (exn_str e))];
              status := HTTP_500_INTERNAL_SERVER_ERROR |})).
Proof.
  unfold submit_feedback, submit_feedback_try, bind.
  pose proof (TextAnalysis_get_reads
                (get_default (data request) "analysis_id" VNone) t) as Hreads.
  pose proof (TextAnalysis_get_found
                (get_default (data request) "analysis_id" VNone) t) as Hfound.
  destruct (TextAnalysis_get (get_default (data request) "analysis_id" VNone) t)
    as [t1 [a | e]]; cbn [fst snd] in Hreads, Hfound; subst t1.
  - destruct (Hfound a eq_refl) as [Hin Hkey].
    unfold UserFeedback_create.
    destruct (prep_int (get_default (data request) "rating" VNone))
      as [[r |] | e] eqn:Erating.
    + destruct (fits_column r) eqn:Efits.
      * left. exists a, r.
        repeat (split; [first [assumption | reflexivity] |]). reflexivity.
      * right. eexists. reflexivity.
    + right. eexists. reflexivity.
    + right. exists e. reflexivity.
  - right. exists e. reflexivity.
Qed.

(** X6.  [submit_feedback] answers 201 or 500 and never touches the
    analyses.  On 201 it has added exactly one feedback, after the
    existing ones; on 500 the tables are as they were. *)
Theorem submit_feedback_writes_iff_created (request : Request) (t : tables) :
  let (t', response) := submit_feedback request t in
  text_analyses t' = text_analyses t /\
  ((status response = HTTP_201_CREATED /\
    exists f, user_feedbacks t' = (user_feedbacks t ++ [f])%list) \/
   (status response = HTTP_500_INTERNAL_SERVER_ERROR /\ t' = t)).
Proof.
  destruct (submit_feedback_outcomes request t)
    as [(a & r & _ & _ & _ & _ & Hrun) | (e & Hrun)]; rewrite Hrun.
  - split; [reflexivity |]. left. split; [reflexivity |].
    eexists. reflexivity.
  - split; [reflexivity |]. right. split; reflexivity.
Qed.

Lemma filter_absent_id (rows : list TextAnalysis) (n : Z) :
  ~ In n (map id rows) -> filter (fun b => (id b =? n)%Z) rows = [].
Proof.
  induction rows as [| b rows IH]; intros Hfresh; [reflexivity |].
  cbn [filter]. destruct (id b =? n)%Z eqn:Ebn.
  - apply Z.eqb_eq in Ebn. exfalso. apply Hfresh. left. exact Ebn.
  - apply IH. intros Hin. apply Hfresh. right. exact Hin.
Qed.

Lemma distinct_ids_filter (rows : list TextAnalysis) (a : TextAnalysis) :
  NoDup (map id rows) -> In a rows ->
  filter (fun b => (id b =? id a)%Z) rows = [a].
Proof.
  induction rows as [| b rows IH]; intros Hnodup Hin; [destruct Hin |].
  cbn [map] in Hnodup. inversion Hnodup as [| ? ? Hfresh Hrest]; subst.
  cbn [filter]. destruct Hin as [-> | Hin].
  - rewrite Z.eqb_refl. f_equal. apply filter_absent_id. exact Hfresh.
  - destruct (id b =? id a)%Z eqn:Eba.
    + apply Z.eqb_eq in Eba. exfalso. apply Hfresh. rewrite Eba.
      apply in_map. exact Hin.
    + apply IH; assumption.
Qed.

Lemma small_fits_column (r : Z) :
  (- 2 ^ 31 <= r < 2 ^ 31)%Z -> fits_column r = true.
Proof.
  intros [Hlo Hhi]. unfold fits_column.
  apply andb_true_iff. split; [apply Z.leb_le | apply Z.ltb_lt]; lia.
Qed.

(** X7.  When the analyses have distinct identifiers, feedback on the
    identifier of a recorded analysis with an integer rating that a
    32-bit column holds (the narrower of the two configured databases)
    is answered 201 and stored as one new row that points to that
    analysis and holds the rating as sent. *)
Theorem submit_feedback_records (request : Request) (t : tables)
    (a : TextAnalysis) (r : Z) :
  distinct_ids t ->
  In a (text_analyses t) ->
  get (data request) "analysis_id" = Some (VInt (id a)) ->
  get (data request) "rating" = Some (VInt r) ->
  (- 2 ^ 31 <= r < 2 ^ 31)%Z ->
  let (t', response) := submit_feedback request t in
  status response = HTTP_201_CREATED /\
  text_analyses t' = text_analyses t /\
  exists f,
    user_feedbacks t' = (user_feedbacks t ++ [f])%list /\
    analysis f = id a /\ rating f = r.
Proof.
  intros Hdistinct Hin Hid Hrating Hsmall.
  unfold submit_feedback, submit_feedback_try, bind, get_default.
  rewrite Hid, Hrating.
  unfold TextAnalysis_get. cbn [prep_int].
  rewrite (distinct_ids_filter _ a Hdistinct Hin).
  unfold UserFeedback_create. cbn [prep_int].
  rewrite (small_fits_column r Hsmall).
  split; [reflexivity |]. split; [reflexivity |].
  eexists. split; [reflexivity |]. split; reflexivity.
Qed.

Lemma submit_feedback_records_witness :
  let (t', response) :=
    submit_feedback
      (request_of [("analysis_id", VInt 1); ("rating", VInt 4)])
      one_analysis in
  status response = HTTP_201_CREATED /\
  text_analyses t' = text_analyses one_analysis /\
  exists f,
    user_feedbacks t' = (user_feedbacks one_analysis ++ [f])%list /\
    analysis f = id recorded_row /\ rating f = 4%Z.
Proof.
  apply (submit_feedback_records
           (request_of [("analysis_id", VInt 1); ("rating", VInt 4)])
           one_analysis recorded_row 4%Z).
  - unfold distinct_ids. vm_compute. constructor; [intros [] | constructor].
  - vm_compute. left. reflexivity.
  - reflexivity.
  - reflexivity.
  - lia.
Defined.

(** *** Runs of calls *)

Lemma analyze_text_outcomes (request : Request) (env : Env) (t : tables) :
  (valid_text request = true /\
   exists row response,
     analyze_text request env t
     = ({| text_analyses := text_analyses t ++ [row];
           analysis_seq := (analysis_seq t + 1)%Z;
           user_feedbacks := user_feedbacks t;
           feedback_seq := feedback_seq t |}, response) /\
     id row = (analysis_seq t + 1)%Z /\
     status response = HTTP_200_OK) \/
  (valid_text request = false /\
   exists response,
     analyze_text request env t = (t, response) /\
     (status response = HTTP_400_BAD_REQUEST \/
      status response = HTTP_500_INTERNAL_SERVER_ERROR)).
Proof.
  unfold valid_text.
  destruct (get_default (data request) "text" (VStr ""))
    as [| b | n | x | s | l | d] eqn:Etext.
  5: {
    destruct ((10 <=? len (strip s)) && (len (strip s) <=? 2000))%Z eqn:Evalid.
    - apply andb_true_iff in Evalid. destruct Evalid as [Hlo Hhi].
      apply Z.leb_le in Hlo, Hhi.
      destruct (analyze_text_accepts request env t s Etext (conj Hlo Hhi))
        as (row & response & _ & _ & Hrun & _ & Hid & _ & _ & _ & _ & _ & _
            & Hstatus & _).
      left. split; [reflexivity |]. exists row, response.
      split; [exact Hrun |]. split; [exact Hid | exact Hstatus].
    - apply andb_false_iff in Evalid.
      destruct (analyze_text_refuses request env t s Etext) as [m Hrun].
      { rewrite Z.leb_gt, Z.leb_gt in Evalid. lia. }
      right. split; [reflexivity |]. eexists. split; [exact Hrun |].
      left. reflexivity. }
  all: right; split; [reflexivity |]; eexists;
       (split; [apply analyze_text_fails; intros s; rewrite Etext; discriminate
               | right; reflexivity]).
Qed.

Lemma analyze_text_keeps_references (request : Request) (env : Env)
    (t : tables) :
  feedbacks_reference_analyses t ->
  feedbacks_reference_analyses (fst (analyze_text request env t)).
Proof.
  intros Hinv.
  destruct (analyze_text_outcomes request env t)
    as [(_ & row & response & Hrun & _) | (_ & response & Hrun & _)];
    rewrite Hrun; cbn [fst]; [| exact Hinv].
  intros f Hf. cbn [user_feedbacks] in Hf.
  destruct (Hinv f Hf) as (a & Ha & Hid).
  exists a. cbn [text_analyses]. split; [| exact Hid].
  apply in_or_app. left. exact Ha.
Qed.

Lemma submit_feedback_keeps_references (request : Request) (t : tables) :
  feedbacks_reference_analyses t ->
  feedbacks_reference_analyses (fst (submit_feedback request t)).
Proof.
  intros Hinv.
  destruct (submit_feedback_outcomes request t)
    as [(a & r & Hin & _ & _ & _ & Hrun) | (e & Hrun)];
    rewrite Hrun; cbn [fst]; [| exact Hinv].
  intros f Hf. cbn [user_feedbacks text_analyses] in *.
  apply in_app_or in Hf. destruct Hf as [Hf | [<- | []]].
  - exact (Hinv f Hf).
  - exists a. split; [exact Hin | reflexivity].
Qed.

(** X8.  After any run of [analyze_text] and [submit_feedback] calls from
    the empty tables, every stored feedback points to a stored
    analysis. *)
Theorem feedback_always_references_an_analysis (calls : list call) :
  feedbacks_reference_analyses (run calls Api.empty_tables).
Proof.
  unfold run.
  assert (Hgen : forall t, feedbacks_reference_analyses t ->
                           feedbacks_reference_analyses (fold_left run_call calls t)).
  { induction calls as [| c calls IH]; intros t Hinv; cbn [fold_left];
      [exact Hinv |].
    apply IH. destruct c as [request env | request]; cbn [run_call].
    - apply analyze_text_keeps_references. exact Hinv.
    - apply submit_feedback_keeps_references. exact Hinv. }
  apply Hgen. intros f Hf. destruct Hf.
Qed.



End ApiExtra.

(** ** Further properties of the classifier *)
Module ClassifierExtra.
Import Py Api Samples.

Local Open Scope string_scope.
Local Open Scope Q_scope.

(** *** Scores *)

Lemma sum_of_ones {A : Type} (l : list A) (acc : Z) :
  fold_left Z.add (map (fun _ => 1%Z) l) acc = (acc + Z.of_nat (length l))%Z.
Proof.
  revert acc. induction l as [| x l IH]; intros acc; cbn [map fold_left length].
  - lia.
  - rewrite IH. lia.
Qed.

Lemma keyword_score_count (keywords : list string) (text_lower : string) :
  keyword_score keywords text_lower
  = Z.of_nat (length (filter (fun word => contains word text_lower) keywords)).
Proof. unfold keyword_score. rewrite sum_of_ones. lia. Qed.

Lemma keyword_score_range (keywords : list string) (text : string) :
  (0 <= keyword_score keywords text <= Z.of_nat (length keywords))%Z.
Proof.
  rewrite keyword_score_count.
  pose proof (filter_length_le (fun word => contains word text) keywords). lia.
Qed.

Lemma scores_range (text : string) :
  (0 <= depression_score text <= 8)%Z /\
  (0 <= anxiety_score text <= 8)%Z /\
  (0 <= neutral_score text <= 8)%Z.
Proof.
  unfold depression_score, anxiety_score, neutral_score.
  pose proof (keyword_score_range depression_keywords (lower text)) as Hd.
  pose proof (keyword_score_range anxiety_keywords (lower text)) as Ha.
  pose proof (keyword_score_range neutral_keywords (lower text)) as Hn.
  cbn [depression_keywords anxiety_keywords neutral_keywords length Z.of_nat
       Pos.of_succ_nat Pos.succ] in Hd, Ha, Hn.
  repeat split; lia.
Qed.

(** X10.  A keyword score counts the keywords of the list that occur in
    the text, each once however often it occurs: it is the number of
    keywords that the text contains, so it lies between 0 and the length
    of the list, and each of the three scores of a text lies between 0
    and 8. *)
Theorem keyword_score_bounds (keywords : list string) (text : string) :
  keyword_score keywords text
  = Z.of_nat (length (filter (fun word => contains word text) keywords)) /\
  (0 <= keyword_score keywords text <= Z.of_nat (length keywords))%Z /\
  (0 <= depression_score text <= 8)%Z /\
  (0 <= anxiety_score text <= 8)%Z /\
  (0 <= neutral_score text <= 8)%Z.
Proof.
  split; [apply keyword_score_count |].
  split; [apply keyword_score_range |].
  apply scores_range.
Qed.

(** *** Letter case *)

Lemma lower_char_idempotent (c : ascii) :
  lower_char (lower_char c) = lower_char c.
Proof.
  destruct c as [b0 b1 b2 b3 b4 b5 b6 b7].
  destruct b0, b1, b2, b3, b4, b5, b6, b7; vm_compute; reflexivity.
Qed.

Lemma lower_idempotent (s : string) : lower (lower s) = lower s.
Proof.
  induction s as [| c s IH]; cbn [lower]; [reflexivity |].
  rewrite lower_char_idempotent, IH. reflexivity.
Qed.

(** X11.  The classifier ignores letter case: a text and its lower-cased
    form get the same label, confidence and probabilities from the same
    draws. *)
Theorem classifier_ignores_case (text : string) (g : rng) :
  generate_demo_prediction (lower text) g = generate_demo_prediction text g.
Proof.
  unfold generate_demo_prediction.
  rewrite lower_idempotent. reflexivity.
Qed.

(** *** Confidence tiers *)

Lemma clamp_floor (x lo : Q) :
  lo <= 0.95 -> lo <= x -> lo <= Qmin 0.95 (Qmax 0.3 x).
Proof.
  intros Hcap Hx. apply Q.min_glb; [exact Hcap |].
  apply Qle_trans with x; [exact Hx | apply Q.le_max_r].
Qed.

Lemma level_low (confidence : Q) : level confidence = "low" -> confidence <= 0.5.
Proof.
  unfold level, gt.
  destruct (Qle_bool confidence 0.7) eqn:E7; cbn [negb]; [| discriminate].
  destruct (Qle_bool confidence 0.5) eqn:E5; cbn [negb]; [| discriminate].
  intros _. apply Qle_bool_iff. exact E5.
Qed.

(** The base confidence of each branch, given non-negative scores. *)
Lemma choose_base (d a n : Z) :
  (0 <= d)%Z -> (0 <= a)%Z -> (0 <= n)%Z ->
  0.5 <= snd (choose d a n) /\
  (fst (choose d a n) <> "neutral" -> 0.75 <= snd (choose d a n)) /\
  (snd (choose d a n) < 0.65 -> fst (choose d a n) = "neutral" /\ n = 0%Z).
Proof.
  intros Hd Ha Hn. unfold choose.
  destruct ((a <? d)%Z && (n <? d)%Z) eqn:Ed.
  { apply andb_true_iff in Ed. destruct Ed as [E1 _]. apply Z.ltb_lt in E1.
    assert (Hone : 1 <= inject_Z d)
      by (change 1 with (inject_Z 1); rewrite <- Zle_Qle; lia).
    cbn [fst snd]. repeat split; intros; try lra. }
  destruct ((d <? a)%Z && (n <? a)%Z) eqn:Ea.
  { apply andb_true_iff in Ea. destruct Ea as [E1 _]. apply Z.ltb_lt in E1.
    assert (Hone : 1 <= inject_Z a)
      by (change 1 with (inject_Z 1); rewrite <- Zle_Qle; lia).
    cbn [fst snd]. repeat split; intros; try lra. }
  destruct (0 <? n)%Z eqn:En.
  { apply Z.ltb_lt in En.
    assert (Hone : 1 <= inject_Z n)
      by (change 1 with (inject_Z 1); rewrite <- Zle_Qle; lia).
    cbn [fst snd]. repeat split; intros; try lra; try congruence. }
  apply Z.ltb_ge in En. cbn [fst snd].
  repeat split; intros; try lra; try congruence; lia.
Qed.

(** X12.  With draws in [0, 1) the confidence is never below 0.4 (the
    lower clamp 0.3 is never what decides it); a label other than
    'neutral' has confidence at least 0.65; and the tier 'low' of
    [generate_message] arises only for the label 'neutral' with no
    neutral keyword in the text, so the 'low' messages of 'depression'
    and 'anxiety' are never selected. *)
Theorem low_tier_only_without_keywords (text : string) (g : rng) :
  unit_draws g ->
  let '(prediction, confidence, _, _) := generate_demo_prediction text g in
  0.4 <= confidence /\
  (prediction <> "neutral" -> 0.65 <= confidence) /\
  (level confidence = "low" ->
   prediction = "neutral" /\ neutral_score text = 0%Z).
Proof.
  intros Hg. rewrite ApiFacts.generate_demo_prediction_eq. cbv zeta.
  destruct (Hg O) as [Hu0 Hu1].
  destruct (scores_range text) as (Hd & Ha & Hn).
  destruct (choose_base (depression_score text) (anxiety_score text)
              (neutral_score text)) as (Hbase & Hother & Hlow); try lia.
  set (pc := choose _ _ _) in *.
  set (noise := -0.1 + (0.1 - -0.1) * g O).
  assert (Hnoise : -0.1 <= noise) by (unfold noise; lra).
  split; [apply clamp_floor; lra |].
  split.
  - intros Hne. specialize (Hother Hne). apply clamp_floor; lra.
  - intros Hlevel. apply level_low in Hlevel. apply Hlow.
    destruct (Qlt_le_dec (snd pc) 0.65) as [Hlt | Hge]; [exact Hlt |].
    exfalso.
    assert (Hfloor : 0.55 <= Qmin 0.95 (Qmax 0.3 (snd pc + noise)))
      by (apply clamp_floor; lra).
    lra.
Qed.

Lemma low_tier_only_without_keywords_witness :
  let '(prediction, confidence, _, _) :=
    generate_demo_prediction tied_text draws_low in
  0.4 <= confidence /\
  (prediction <> "neutral" -> 0.65 <= confidence) /\
  (level confidence = "low" ->
   prediction = "neutral" /\ neutral_score tied_text = 0%Z).
Proof.
  apply (low_tier_only_without_keywords tied_text draws_low).
  exact ApiFacts.draws_low_unit.
Defined.

(** *** The distribution, for any label *)

(** Decides the comparisons of two literal keys. *)
Ltac known_keys :=
  repeat match goal with
         | |- context [String.eqb ?a ?b] =>
             let v := eval vm_compute in (String.eqb a b) in
             match v with
             | true => change (String.eqb a b) with true
             | false => change (String.eqb a b) with false
             end
         end.

(** X13.  Whatever the label (a key of the table or not), the confidence
    and the draws, the probabilities that [generate_probabilities] returns
    sum to 1 and the label holds the confidence: normalisation does not
    depend on the ranges. *)
Theorem generate_probabilities_normalised (prediction : string)
    (confidence : Q) (g : rng) :
  let probs := fst (generate_probabilities prediction confidence g) in
  Py.sum (values probs) == 1 /\
  get probs prediction = Some confidence.
Proof.
  cbv zeta. unfold generate_probabilities. cbn [set keys map fst].
  destruct (String.eqb_spec "neutral" prediction) as [<- | Hn].
  { cbn. unfold uniform, random. cbn.
    split; [unfold Py.sum; simpl; lra | reflexivity]. }
  destruct (String.eqb_spec "depression" prediction) as [<- | Hd].
  { cbn. unfold uniform, random. cbn.
    split; [unfold Py.sum; simpl; lra | reflexivity]. }
  destruct (String.eqb_spec "anxiety" prediction) as [<- | Ha].
  { cbn. unfold uniform, random. cbn.
    split; [unfold Py.sum; simpl; lra | reflexivity]. }
  apply String.eqb_neq in Hn, Hd, Ha.
  unfold uniform, random.
  repeat (cbn -[String.eqb];
          rewrite ?Hn, ?Hd, ?Ha, ?String.eqb_refl; known_keys).
  split; [unfold Py.sum; simpl; lra | reflexivity].
Qed.

(** X14.  For a label of the category set and a confidence in [0.3, 0.9],
    with draws in [0, 1), each of the two other labels gets at least 0.05
    and at most what remains less 0.05. *)
Theorem other_labels_get_a_share (prediction : string) (confidence : Q)
    (g : rng) :
  In prediction categories ->
  0.3 <= confidence <= 0.9 ->
  unit_draws g ->
  Forall (fun kv : string * Q =>
            fst kv = prediction \/
            0.05 <= snd kv <= 1 - confidence - 0.05)
    (fst (generate_probabilities prediction confidence g)).
Proof.
  intros Hp [Hlo Hhi] Hg. destruct (Hg O) as [Hu0 Hu1].
  unfold categories in Hp. simpl in Hp.
  destruct Hp as [<- | [<- | [<- | []]]]; cbn; unfold uniform, random; cbn.
  all: repeat (apply Forall_cons; [| try apply Forall_nil]); cbn [fst snd];
    first [left; reflexivity | right; split; nra].
Qed.

Lemma other_labels_get_a_share_witness :
  Forall (fun kv : string * Q =>
            fst kv = "depression" \/
            0.05 <= snd kv <= 1 - 0.75 - 0.05)
    (fst (generate_probabilities "depression" 0.75 draws_mid)).
Proof.
  apply (other_labels_get_a_share "depression" 0.75 draws_mid).
  - unfold categories. simpl. auto.
  - split; lra.
  - exact ApiFacts.draws_mid_unit.
Defined.

(** *** [get_client_ip] *)

Lemma split_first_no_separator (sep : ascii) (s : string) :
  contains (String sep "") (split_first sep s) = false.
Proof.
  induction s as [| c s IH]; cbn [split_first].
  - reflexivity.
  - destruct (Ascii.eqb c sep) eqn:Ec; [reflexivity |].
    cbn [contains String.prefix].
    destruct (ascii_dec sep c) as [-> | _].
    + rewrite Ascii.eqb_refl in Ec. discriminate Ec.
    + exact IH.
Qed.

Lemma split_first_prefix (sep : ascii) (s : string) :
  String.prefix (split_first sep s) s = true.
Proof.
  induction s as [| c s IH]; cbn [split_first]; [reflexivity |].
  destruct (Ascii.eqb c sep); [reflexivity |].
  cbn [String.prefix]. destruct (ascii_dec c c); [exact IH | congruence].
Qed.

Lemma split_first_whole (sep : ascii) (s : string) :
  contains (String sep "") s = false -> split_first sep s = s.
Proof.
  induction s as [| c s IH]; cbn [split_first contains String.prefix];
    [reflexivity |].
  destruct (ascii_dec sep c) as [-> | Hne].
  - intros H. destruct s; cbn in H; discriminate H.
  - cbn [orb]. intros H.
    destruct (Ascii.eqb_spec c sep) as [-> | _]; [congruence |].
    rewrite (IH H). reflexivity.
Qed.

Lemma split_first_cut (sep : ascii) (s : string) :
  s = split_first sep s \/
  exists rest, s = split_first sep s ++ String sep rest.
Proof.
  induction s as [| c s IH]; cbn [split_first]; [left; reflexivity |].
  destruct (Ascii.eqb_spec c sep) as [-> | Hne].
  - right. exists s. reflexivity.
  - destruct IH as [IH | [rest IH]].
    + left. f_equal. exact IH.
    + right. exists rest. cbn [append]. f_equal. exact IH.
Qed.

(** X15.  When the request carries a non-empty [X-Forwarded-For] header,
    [get_client_ip] returns its first entry: the part of the header that
    holds no comma and is either the whole header or what stands before
    its first comma; [REMOTE_ADDR] is not consulted. *)
Theorem get_client_ip_forwarded (request : Request) (header : string) :
  get (META request) "HTTP_X_FORWARDED_FOR" = Some header ->
  header <> "" ->
  exists ip,
    get_client_ip request = Some ip /\
    contains "," ip = false /\
    (header = ip \/ exists rest, header = ip ++ "," ++ rest).
Proof.
  intros Hheader Hnonempty. unfold get_client_ip. rewrite Hheader.
  destruct (String.eqb_spec header "") as [-> | _]; [congruence |].
  cbn [negb]. exists (split_first "," header).
  split; [reflexivity |].
  split; [apply split_first_no_separator |].
  exact (split_first_cut "," header).
Qed.

Lemma get_client_ip_forwarded_witness :
  exists ip,
    get_client_ip
      {| data := [];
         session_key := None;
         META := [("HTTP_X_FORWARDED_FOR", "203.0.113.7, 10.0.0.1");
                  ("REMOTE_ADDR", "10.0.0.1")] |}
    = Some ip /\
    contains "," ip = false /\
    ("203.0.113.7, 10.0.0.1" = ip \/
     exists rest, "203.0.113.7, 10.0.0.1" = ip ++ "," ++ rest).
Proof.
  apply (get_client_ip_forwarded
           {| data := [];
              session_key := None;
              META := [("HTTP_X_FORWARDED_FOR", "203.0.113.7, 10.0.0.1");
                       ("REMOTE_ADDR", "10.0.0.1")] |}
           "203.0.113.7, 10.0.0.1").
  - reflexivity.
  - discriminate.
Defined.

End ClassifierExtra.

(** ** Further properties of [reports_view] *)
Module AnalyticsExtra.
Import Py Analytics Samples.

Local Open Scope Z_scope.

(** *** Sums of counts *)

Lemma fold_add_acc (l : list Z) (acc : Z) :
  fold_left Z.add l acc = acc + fold_left Z.add l 0.
Proof.
  revert acc. induction l as [| x l IH]; intros acc; cbn [fold_left]; [lia |].
  rewrite (IH (acc + x)), (IH (0 + x)). lia.
Qed.

Lemma fold_add_cons (x : Z) (l : list Z) :
  fold_left Z.add (x :: l) 0 = x + fold_left Z.add l 0.
Proof. cbn [fold_left]. rewrite fold_add_acc. lia. Qed.

Lemma fold_add_pointwise {A : Type} (f h : A -> Z) (l : list A) :
  fold_left Z.add (map (fun x => f x + h x) l) 0
  = fold_left Z.add (map f l) 0 + fold_left Z.add (map h l) 0.
Proof.
  induction l as [| x l IH]; cbn [map]; [reflexivity |].
  rewrite !fold_add_cons, IH. lia.
Qed.

(** Over the [n] days from [lo + s] on, the day [x] is met once when it
    is one of them and never otherwise. *)
Lemma days_hit_once (lo x : Z) (n s : nat) :
  fold_left Z.add
    (map (fun d => if x =? d then 1 else 0)
       (map (fun i => lo + Z.of_nat i) (seq s n))) 0
  = if (lo + Z.of_nat s <=? x) && (x <? lo + Z.of_nat s + Z.of_nat n)
    then 1 else 0.
Proof.
  revert s. induction n as [| n IH]; intros s; cbn [seq map].
  - cbn [fold_left].
    destruct (lo + Z.of_nat s <=? x) eqn:E1, (x <? lo + Z.of_nat s + Z.of_nat 0) eqn:E2;
      cbn [andb]; try reflexivity.
    apply Z.leb_le in E1. apply Z.ltb_lt in E2. lia.
  - rewrite fold_add_cons, IH.
    destruct (x =? lo + Z.of_nat s) eqn:Ex;
      [apply Z.eqb_eq in Ex | apply Z.eqb_neq in Ex].
    + replace (lo + Z.of_nat (S s) <=? x) with false
        by (symmetry; apply Z.leb_gt; lia).
      replace (lo + Z.of_nat s <=? x) with true
        by (symmetry; apply Z.leb_le; lia).
      replace (x <? lo + Z.of_nat s + Z.of_nat (S n)) with true
        by (symmetry; apply Z.ltb_lt; lia).
      reflexivity.
    + destruct (lo + Z.of_nat (S s) <=? x) eqn:E1,
               (x <? lo + Z.of_nat (S s) + Z.of_nat n) eqn:E2,
               (lo + Z.of_nat s <=? x) eqn:E3,
               (x <? lo + Z.of_nat s + Z.of_nat (S n)) eqn:E4;
        cbn [andb]; try reflexivity; exfalso;
        rewrite ?Z.leb_le, ?Z.leb_gt, ?Z.ltb_lt, ?Z.ltb_ge in *; lia.
Qed.

Lemma window_hit_once (today x : date) :
  fold_left Z.add (map (fun d => if x =? d then 1 else 0) (window today)) 0
  = if (today - 29 <=? x) && (x <=? today) then 1 else 0.
Proof.
  unfold window, range.
  rewrite (map_map Z.of_nat (fun i => today - 29 + i)).
  rewrite (days_hit_once (today - 29) x 30 0).
  destruct (today - 29 + Z.of_nat 0 <=? x) eqn:E1,
           (x <? today - 29 + Z.of_nat 0 + Z.of_nat 30) eqn:E2,
           (today - 29 <=? x) eqn:E3, (x <=? today) eqn:E4;
    cbn [andb]; try reflexivity; exfalso;
    rewrite ?Z.leb_le, ?Z.leb_gt, ?Z.ltb_lt, ?Z.ltb_ge in *; lia.
Qed.

(** X16.  The counts of the activity series add up to the number of
    analyses created in the window, from 29 days ago to today: an older
    analysis, or one dated after today, is in no entry, and none is
    counted twice. *)
Theorem activity_counts_the_window (strftime : date -> string)
    (now : datetime) (db : store) :
  fold_left Z.add (recent_activity_data (reports_view strftime now db)) 0
  = count (filter (fun a => (date_of now - 29 <=? date_of (created_at a))
                            && (date_of (created_at a) <=? date_of now))
             (analyses db)).
Proof.
  destruct (AnalyticsFacts.reports_view_series strftime now db) as [_ Hdata].
  rewrite Hdata. unfold analyses_on.
  set (today := date_of now).
  induction (analyses db) as [| a rows IH]; cbn [filter].
  - unfold window, range. rewrite !map_map. cbn. reflexivity.
  - set (here := fun d : date =>
                   if date_of (created_at a) =? d then 1 else 0).
    set (rest := fun d : date =>
                   count (filter (fun a0 => date_of (created_at a0) =? d) rows))
      in *.
    rewrite (map_ext _ (fun d => here d + rest d)).
    2: { intros d. unfold here, rest. cbn [filter].
         destruct (date_of (created_at a) =? d);
           [rewrite AnalyticsFacts.count_cons |]; lia. }
    rewrite (fold_add_pointwise here rest).
    unfold here. rewrite window_hit_once, IH.
    destruct ((today - 29 <=? date_of (created_at a))
              && (date_of (created_at a) <=? today));
      [rewrite AnalyticsFacts.count_cons |]; lia.
Qed.

(** *** Stars *)

Lemma star_counts_total (fbs : list Feedback) :
  fold_left Z.add
    (map (fun star => count (filter (fun f => rating f =? star) fbs)) stars) 0
  = count (filter (fun f => (1 <=? rating f) && (rating f <=? 5)) fbs).
Proof.
  unfold stars. cbn [map].
  rewrite !fold_add_cons. cbn [fold_left].
  induction fbs as [| f fbs IH]; [reflexivity |].
  cbn [filter].
  destruct (Z.eqb_spec (rating f) 5), (Z.eqb_spec (rating f) 4),
           (Z.eqb_spec (rating f) 3), (Z.eqb_spec (rating f) 2),
           (Z.eqb_spec (rating f) 1); try lia;
    destruct (Z.leb_spec 1 (rating f)), (Z.leb_spec (rating f) 5);
    cbn [andb]; rewrite ?AnalyticsFacts.count_cons; lia.
Qed.

Lemma filter_all {A : Type} (p : A -> bool) (l : list A) :
  forallb p l = true -> filter p l = l.
Proof.
  induction l as [| x l IH]; cbn [forallb filter]; [reflexivity |].
  intros Hall. apply andb_true_iff in Hall. destruct Hall as [Hx Hrest].
  rewrite Hx, (IH Hrest). reflexivity.
Qed.

(** X17.  [star_stats] has one entry per star, from 5 down to 1, and its
    counts add up to the number of feedbacks rated from 1 to 5: a
    feedback with any other rating is in [total_feedback] but in no
    entry, so the counts add up to [total_feedback] exactly when every
    rating is in range. *)
Theorem star_counts_cover_rated_feedback (strftime : date -> string)
    (now : datetime) (db : store) :
  let ctx := reports_view strftime now db in
  map star (star_stats ctx) = [5; 4; 3; 2; 1] /\
  fold_left Z.add (map star_count (star_stats ctx)) 0
  = count (filter (fun f => (1 <=? rating f) && (rating f <=? 5))
             (feedbacks db)) /\
  (fold_left Z.add (map star_count (star_stats ctx)) 0 = total_feedback ctx <->
   forallb (fun f => (1 <=? rating f) && (rating f <=? 5)) (feedbacks db)
   = true).
Proof.
  cbv zeta.
  destruct (AnalyticsFacts.reports_view_core strftime now db)
    as (_ & _ & Hstars).
  assert (Htotal : total_feedback (reports_view strftime now db)
                   = count (feedbacks db)).
  { unfold reports_view. destruct (daily_series _ _ _). reflexivity. }
  assert (Hsum : fold_left Z.add
                   (map star_count (star_stats (reports_view strftime now db))) 0
                 = count (filter (fun f => (1 <=? rating f) && (rating f <=? 5))
                            (feedbacks db))).
  { rewrite Hstars, map_map. cbn [star_count]. apply star_counts_total. }
  split; [rewrite Hstars, map_map; reflexivity |].
  split; [exact Hsum |].
  rewrite Hsum, Htotal. unfold count. split.
  - intros Hlen. apply filter_length_forallb. lia.
  - intros Hall. rewrite (filter_all _ _ Hall). reflexivity.
Qed.

(** *** Average rating *)

Lemma ratings_sum_bounds (lo hi : Z) (l : list Z) :
  Forall (fun r => lo <= r <= hi) l ->
  lo * Z.of_nat (length l) <= fold_left Z.add l 0 <= hi * Z.of_nat (length l).
Proof.
  induction 1 as [| r l Hr _ IH]; [cbn; lia |].
  rewrite fold_add_cons. cbn [length]. lia.
Qed.

Lemma quotient_bounds (lo hi s n : Z) :
  0 < n -> lo * n <= s <= hi * n ->
  (inject_Z lo <= inject_Z s / inject_Z n <= inject_Z hi)%Q.
Proof.
  intros Hn [Hlo Hhi].
  assert (Hpos : (0 < inject_Z n)%Q)
    by (change 0%Q with (inject_Z 0); rewrite <- Zlt_Qlt; exact Hn).
  split.
  - apply Qle_shift_div_l; [exact Hpos |].
    rewrite <- inject_Z_mult, <- Zle_Qle. exact Hlo.
  - apply Qle_shift_div_r; [exact Hpos |].
    rewrite <- inject_Z_mult, <- Zle_Qle. exact Hhi.
Qed.

(** X18.  When there is feedback and every rating lies from 1 to 5, the
    reported average rating lies from 1 to 5; without feedback it is
    0. *)
Theorem avg_rating_in_range (strftime : date -> string) (now : datetime)
    (db : store) :
  Forall (fun f => 1 <= rating f <= 5) (feedbacks db) ->
  let ctx := reports_view strftime now db in
  (feedbacks db = [] -> avg_rating ctx = 0%Q) /\
  (feedbacks db <> [] -> (1 <= avg_rating ctx <= 5)%Q).
Proof.
  intros Hrange. cbv zeta.
  destruct (AnalyticsFacts.reports_view_core strftime now db)
    as (_ & Havg & _).
  rewrite Havg. split.
  - intros ->. reflexivity.
  - intros Hsome. rewrite (AnalyticsFacts.Avg_rating_some _ Hsome).
    assert (Hratings : Forall (fun r => 1 <= r <= 5) (map rating (feedbacks db))).
    { apply Forall_map. exact Hrange. }
    pose proof (ratings_sum_bounds 1 5 _ Hratings) as Hsum.
    rewrite length_map in Hsum.
    assert (Hn : 0 < count (feedbacks db)).
    { unfold count. destruct (feedbacks db); [congruence | cbn [length]; lia]. }
    pose proof (quotient_bounds 1 5 _ (count (feedbacks db)) Hn Hsum) as Hq.
    set (q := (inject_Z (fold_left Z.add (map rating (feedbacks db)) 0%Z)
               / inject_Z (count (feedbacks db)))%Q) in *.
    change (inject_Z 1) with 1%Q in Hq. change (inject_Z 5) with 5%Q in Hq.
    unfold or_zero. destruct (Qeq_bool q 0) eqn:Ezero; [| exact Hq].
    apply Qeq_bool_iff in Ezero. lra.
Qed.

Lemma avg_rating_in_range_witness :
  let ctx := reports_view (fun _ => ""%string) 1702864800 sample_store in
  (feedbacks sample_store = [] -> avg_rating ctx = 0%Q) /\
  (feedbacks sample_store <> [] -> (1 <= avg_rating ctx <= 5)%Q).
Proof.
  apply (avg_rating_in_range (fun _ => ""%string) 1702864800 sample_store).
  repeat constructor; cbn; lia.
Defined.

(** *** Rounding *)

Local Open Scope Q_scope.

(** X19.  With at least one analysis, the reported [feedback_rate] is
    within 0.005 of [total_feedback / total_analyses * 100] and is not
    negative. *)
Theorem feedback_rate_accuracy (strftime : date -> string) (now : datetime)
    (db : store) :
  analyses db <> [] ->
  let ctx := reports_view strftime now db in
  let exact :=
    inject_Z (count (feedbacks db)) / inject_Z (count (analyses db)) * 100 in
  exact - 0.005 <= feedback_rate ctx <= exact + 0.005 /\
  0 <= feedback_rate ctx.
Proof.
  intros Hsome. cbv zeta.
  destruct (AnalyticsFacts.reports_view_core strftime now db)
    as (Hrate & _ & _).
  rewrite Hrate.
  assert (Hn : (0 < count (analyses db))%Z).
  { unfold count. destruct (analyses db); [congruence | cbn [length]; lia]. }
  destruct (Z.eqb_spec (count (analyses db)) 0) as [Hzero | _]; [lia |].
  split; [apply AnalyticsFacts.round_two_close |].
  assert (Hexact : 0 <= inject_Z (count (feedbacks db))
                        / inject_Z (count (analyses db)) * 100).
  { apply Qmult_le_0_compat; [| lra].
    apply Qle_shift_div_l.
    - change 0 with (inject_Z 0). rewrite <- Zlt_Qlt. exact Hn.
    - rewrite Qmult_0_l. change 0 with (inject_Z 0). rewrite <- Zle_Qle.
      unfold count. lia. }
  set (x := inject_Z (count (feedbacks db))
            / inject_Z (count (analyses db)) * 100) in *.
  unfold round. change (inject_Z (10 ^ Z.of_nat 2)) with 100.
  apply Qle_shift_div_l; [lra |]. rewrite Qmult_0_l.
  change 0 with (inject_Z 0). rewrite <- Zle_Qle.
  unfold round_half_even.
  assert (Hfloor : (0 <= Qfloor (x * 100))%Z).
  { change 0%Z with (Qfloor 0). apply Qfloor_resp_le. lra. }
  destruct (Qcompare _ _); [destruct (Z.even _) | |]; lia.
Qed.

Lemma feedback_rate_accuracy_witness :
  let ctx := reports_view (fun _ => ""%string) 1702864800%Z sample_store in
  let exact :=
    inject_Z (count (feedbacks sample_store))
    / inject_Z (count (analyses sample_store)) * 100 in
  exact - 0.005 <= feedback_rate ctx <= exact + 0.005 /\
  0 <= feedback_rate ctx.
Proof.
  apply (feedback_rate_accuracy (fun _ => ""%string) 1702864800%Z sample_store).
  discriminate.
Defined.

(** *** The empty store *)

(** X20.  Over a store with no analysis and no feedback [reports_view]
    raises nothing and reports zeros throughout: totals, rate and average
    are 0, every star has count 0 and percentage 0, and the activity
    series is thirty zeros. *)
Theorem reports_view_empty_store (strftime : date -> string) (now : datetime) :
  let ctx := reports_view strftime now {| analyses := []; feedbacks := [] |} in
  total_analyses ctx = 0%Z /\
  total_feedback ctx = 0%Z /\
  feedback_rate ctx = 0 /\
  avg_rating ctx = 0 /\
  Forall (fun s => star_count s = 0%Z /\ percentage s = 0) (star_stats ctx) /\
  length (star_stats ctx) = 5%nat /\
  recent_activity_data ctx = repeat 0%Z 30.
Proof.
  cbv zeta.
  destruct (AnalyticsFacts.reports_view_core strftime now
              {| analyses := []; feedbacks := [] |}) as (Hrate & Havg & Hstars).
  destruct (AnalyticsFacts.reports_view_series strftime now
              {| analyses := []; feedbacks := [] |}) as [_ Hdata].
  rewrite Hrate, Havg, Hstars, Hdata.
  split; [unfold reports_view; destruct (daily_series _ _ _); reflexivity |].
  split; [unfold reports_view; destruct (daily_series _ _ _); reflexivity |].
  split; [reflexivity |]. split; [reflexivity |].
  split; [repeat constructor |].
  split; [reflexivity |].
  unfold window, range. rewrite map_map. reflexivity.
Qed.

End AnalyticsExtra.

(** ** Properties of [export_data] *)
Module CsvExportFacts.
Import Py Analytics CsvExport Samples.

Local Open Scope string_scope.

Lemma has_feedback_cell (strftime : datetime -> string) (db : store)
    (a : Analysis) :
  nth 7 (analysis_row strftime db a) VNone = VBool true <->
  exists fb, In fb (feedbacks db) /\ analysis fb = id a.
Proof.
  cbn [analysis_row nth]. split.
  - intros Hcell. injection Hcell as Hcell.
    apply existsb_exists in Hcell. destruct Hcell as (fb & Hin & Hid).
    exists fb. split; [exact Hin | apply Z.eqb_eq; exact Hid].
  - intros (fb & Hin & Hid). f_equal. apply existsb_exists.
    exists fb. split; [exact Hin | apply Z.eqb_eq; exact Hid].
Qed.

(** X21.  The analyses export (the default when the query names no type):
    the file is named analyses.csv; the header comes first and every row
    has eight cells; each analysis of the store fills exactly one row;
    and the last cell of an analysis's row is true exactly when some
    feedback points to that analysis. *)
Theorem export_analyses_rows (strftime : datetime -> string)
    (GET : dict string) (db : store) (latest_first : list Analysis)
    (joined : list (Feedback * Analysis)) :
  get GET "type" = None \/ get GET "type" = Some "analyses" ->
  ordered_latest_first created_at (analyses db) latest_first ->
  let response := export_data strftime GET db latest_first joined in
  content_disposition response = Some (attachment "analyses.csv") /\
  hd_error (rows response) = Some analyses_header /\
  length (rows response) = S (length (analyses db)) /\
  Forall (fun row => length row = 8%nat) (rows response) /\
  Permutation (map (analysis_row strftime db) (analyses db))
    (tl (rows response)) /\
  Forall (fun a =>
            nth 7 (analysis_row strftime db a) VNone = VBool true <->
            exists fb, In fb (feedbacks db) /\ analysis fb = id a)
    (analyses db).
Proof.
  intros Htype [Hperm _]. cbv zeta.
  assert (Hdefault : get_default GET "type" "analyses" = "analyses").
  { unfold get_default. destruct Htype as [-> | ->]; reflexivity. }
  unfold export_data. rewrite Hdefault. cbn [String.eqb Ascii.eqb Bool.eqb].
  cbn [content_disposition rows hd_error tl length].
  split; [reflexivity |]. split; [reflexivity |].
  split; [rewrite length_map, (Permutation_length Hperm); reflexivity |].
  split.
  - constructor; [reflexivity |].
    apply Forall_map. apply Forall_forall. intros a _. reflexivity.
  - split; [apply Permutation_map; exact Hperm |].
    apply Forall_forall. intros a _. apply has_feedback_cell.
Qed.

Lemma sample_store_latest_first :
  ordered_latest_first created_at (analyses sample_store)
    (rev (analyses sample_store)).
Proof.
  split; [apply Permutation_rev |].
  unfold sample_store, sample_analysis, range. cbn [analyses map seq rev app].
  repeat (constructor; [| repeat (constructor; [cbn; lia |]); constructor]).
  constructor.
Defined.

Lemma export_analyses_rows_witness :
  let response :=
    export_data (fun _ => "") [] sample_store (rev (analyses sample_store)) [] in
  content_disposition response = Some (attachment "analyses.csv") /\
  hd_error (rows response) = Some analyses_header /\
  length (rows response) = S (length (analyses sample_store)) /\
  Forall (fun row => length row = 8%nat) (rows response) /\
  Permutation (map (analysis_row (fun _ => "") sample_store)
                 (analyses sample_store))
    (tl (rows response)) /\
  Forall (fun a =>
            nth 7 (analysis_row (fun _ => "") sample_store a) VNone
            = VBool true <->
            exists fb, In fb (feedbacks sample_store) /\ analysis fb = id a)
    (analyses sample_store).
Proof.
  apply (export_analyses_rows (fun _ => "") [] sample_store
           (rev (analyses sample_store)) []).
  - left. reflexivity.
  - exact sample_store_latest_first.
Defined.

(** *** The feedback export *)

Lemma select_related_sound (db : store) (fb : Feedback) (a : Analysis) :
  In (fb, a) (select_related db) ->
  In fb (feedbacks db) /\ In a (analyses db) /\ id a = analysis fb.
Proof.
  unfold select_related. intros Hin.
  apply in_flat_map in Hin. destruct Hin as (fb' & Hfb & Hrow).
  destruct (find (fun a0 => (id a0 =? analysis fb')%Z) (analyses db))
    as [a' |] eqn:Efind; [| destruct Hrow].
  destruct Hrow as [Hrow | []]. injection Hrow as -> ->.
  apply find_some in Efind. destruct Efind as [Ha Hid].
  split; [exact Hfb |]. split; [exact Ha | apply Z.eqb_eq; exact Hid].
Qed.

Lemma select_related_length (db : store) :
  (length (select_related db) <= length (feedbacks db))%nat /\
  (Forall (fun fb => exists a, In a (analyses db) /\ id a = analysis fb)
     (feedbacks db) ->
   length (select_related db) = length (feedbacks db)).
Proof.
  unfold select_related.
  induction (feedbacks db) as [| fb fbs [IHle IHeq]]; cbn [flat_map].
  - split; [apply le_n | reflexivity].
  - rewrite length_app.
    destruct (find (fun a => (id a =? analysis fb)%Z) (analyses db))
      as [a |] eqn:Efind; cbn [length].
    + split; [lia |]. intros Hall. inversion Hall; subst.
      rewrite IHeq by assumption. reflexivity.
    + split; [lia |]. intros Hall. inversion Hall as [| ? ? (a & Ha & Hid) _]; subst.
      pose proof (find_none _ _ Efind a Ha) as Hmiss. cbn beta in Hmiss.
      rewrite Hid, Z.eqb_refl in Hmiss. discriminate Hmiss.
Qed.

(** X22.  The feedback export: the file is named feedback.csv; the header
    comes first and every row has seven cells; every row pairs a feedback
    of the store with the analysis its foreign key names; a feedback
    whose analysis is absent is left out, so there are at most as many
    rows as feedbacks, and exactly as many when every feedback points to
    a stored analysis. *)
Theorem export_feedback_rows (strftime : datetime -> string)
    (GET : dict string) (db : store) (analyses_latest_first : list Analysis)
    (latest_first : list (Feedback * Analysis)) :
  get GET "type" = Some "feedback" ->
  ordered_latest_first (fun joined => feedback_created_at (fst joined))
    (select_related db) latest_first ->
  let response :=
    export_data strftime GET db analyses_latest_first latest_first in
  content_disposition response = Some (attachment "feedback.csv") /\
  hd_error (rows response) = Some feedback_header /\
  Forall (fun row => length row = 7%nat) (rows response) /\
  tl (rows response) = map (feedback_row strftime) latest_first /\
  Forall (fun joined =>
            In (fst joined) (feedbacks db) /\
            In (snd joined) (analyses db) /\
            id (snd joined) = analysis (fst joined))
    latest_first /\
  (length (rows response) <= S (length (feedbacks db)))%nat /\
  (Forall (fun fb => exists a, In a (analyses db) /\ id a = analysis fb)
     (feedbacks db) ->
   length (rows response) = S (length (feedbacks db))).
Proof.
  intros Htype [Hperm _]. cbv zeta.
  unfold export_data, get_default. rewrite Htype.
  cbn [String.eqb Ascii.eqb Bool.eqb].
  cbn [content_disposition rows hd_error tl length].
  destruct (select_related_length db) as [Hle Heq].
  rewrite length_map, <- (Permutation_length Hperm).
  split; [reflexivity |]. split; [reflexivity |].
  split.
  { constructor; [reflexivity |].
    apply Forall_map. apply Forall_forall. intros [fb a] _. reflexivity. }
  split; [reflexivity |].
  split.
  { apply Forall_forall. intros [fb a] Hin. cbn [fst snd].
    apply select_related_sound.
    apply (Permutation_in _ (Permutation_sym Hperm)). exact Hin. }
  split; [lia |].
  intros Hall. rewrite (Heq Hall). reflexivity.
Qed.

Lemma sample_feedback_latest_first :
  ordered_latest_first (fun joined => feedback_created_at (fst joined))
    (select_related sample_store) (select_related sample_store).
Proof.
  split; [apply Permutation_refl |].
  vm_compute select_related.
  repeat (constructor; [| repeat (constructor; [cbn; lia |]); constructor]).
  constructor.
Defined.

Lemma export_feedback_rows_witness :
  let response :=
    export_data (fun _ => "") [("type", "feedback")] sample_store []
      (select_related sample_store) in
  content_disposition response = Some (attachment "feedback.csv") /\
  hd_error (rows response) = Some feedback_header /\
  Forall (fun row => length row = 7%nat) (rows response) /\
  tl (rows response) = map (feedback_row (fun _ => "")) (select_related sample_store) /\
  Forall (fun joined =>
            In (fst joined) (feedbacks sample_store) /\
            In (snd joined) (analyses sample_store) /\
            id (snd joined) = analysis (fst joined))
    (select_related sample_store) /\
  (length (rows response) <= S (length (feedbacks sample_store)))%nat /\
  (Forall (fun fb => exists a, In a (analyses sample_store) /\ id a = analysis fb)
     (feedbacks sample_store) ->
   length (rows response) = S (length (feedbacks sample_store))).
Proof.
  apply (export_feedback_rows (fun _ => "") [("type", "feedback")] sample_store
           [] (select_related sample_store)).
  - reflexivity.
  - exact sample_feedback_latest_first.
Defined.

End CsvExportFacts.
